(** * CyberSentinel: the heuristic risk classifiers

    A shallow embedding of the two classifiers of the dashboard:

    - [Email.generateMockAnalysisResult], the local e-mail heuristic of the
      "Add Email for Analysis" form, together with the form's
      try-the-service-then-fall-back policy ([Email.analyzeEmail],
      [Email.handleApiFailure]);
    - [UrlChecker.analyzeUrl], the URL checker dialog.

    Strings are sequences of 8-bit code units (ISO Latin-1), the range in
    which [toLowerCase] and the regular-expression class [\s] are modelled.
    Numbers that the code only uses as small integers are in [Z]; the value
    of [Math.random()] is a rational, and its products are taken exactly.
    The delays ([setTimeout], the awaited pause of the URL checker) only
    order the steps; logging is left out. *)

From Stdlib Require Import Strings.String Strings.Ascii.
From Stdlib Require Import Lists.List Bool.Bool Arith.PeanoNat.
From Stdlib Require Import ZArith.ZArith QArith.QArith QArith.Qround.
From Stdlib Require Import Numbers.DecimalString.
From Stdlib Require Import Sorting.Sorted micromega.Lia.
Import ListNotations.

Open Scope string_scope.
Open Scope Z_scope.

(* ===================================================================== *)
(** ** The JavaScript string primitives the classifiers call             *)
(* ===================================================================== *)

Module JS.

(** [c.toLowerCase()] on one Latin-1 code unit: A-Z and the accented
    capitals U+00C0..U+00DE (without the multiplication sign U+00D7) move
    up by 32. *)
Definition lower_char (c : ascii) : ascii :=
  let n := nat_of_ascii c in
  if ((65 <=? n) && (n <=? 90))%nat then ascii_of_nat (n + 32)
  else if ((192 <=? n) && (n <=? 222) && negb (n =? 215))%nat
       then ascii_of_nat (n + 32)
  else c.

Fixpoint toLowerCase (s : string) : string :=
  match s with
  | EmptyString => EmptyString
  | String c s' => String (lower_char c) (toLowerCase s')
  end.

(** [s.startsWith(p)] *)
Fixpoint startsWith (s p : string) {struct p} : bool :=
  match p with
  | EmptyString => true
  | String b p' =>
      match s with
      | EmptyString => false
      | String a s' => Ascii.eqb a b && startsWith s' p'
      end
  end.

(** [s.includes(p)]: [p] starts at some position of [s]. *)
Fixpoint includes (s p : string) : bool :=
  startsWith s p ||
  match s with
  | EmptyString => false
  | String _ s' => includes s' p
  end.

(** [s.endsWith(p)]: some suffix of [s] is [p]. *)
Fixpoint endsWith (s p : string) : bool :=
  String.eqb s p ||
  match s with
  | EmptyString => false
  | String _ s' => endsWith s' p
  end.

(** The class [\s] below U+0100: TAB, LF, VT, FF, CR, SPACE, NBSP. *)
Definition is_space (c : ascii) : bool :=
  let n := nat_of_ascii c in
  (((9 <=? n) && (n <=? 13)) || (n =? 32) || (n =? 160))%nat.

(** The longest prefix of [s] without white space: what [[^\s]*] takes. *)
Fixpoint non_space_run (s : string) : string :=
  match s with
  | EmptyString => EmptyString
  | String c s' => if is_space c then EmptyString
                   else String c (non_space_run s')
  end.

Fixpoint drop (n : nat) (s : string) : string :=
  match n, s with
  | O, _ => s
  | S _, EmptyString => EmptyString
  | S k, String _ s' => drop k s'
  end.

(** One match attempt of [/(https?:\/\/[^\s]+)/] anchored at the head of
    [s].  With the optional [s] taken, [://] and one non-space character
    must follow; without it the fifth character must be the colon, so the
    two alternatives exclude each other. *)
Definition urlRegex_at (s : string) : option string :=
  if startsWith s "https://" then
    match non_space_run (drop 8 s) with
    | EmptyString => None
    | run => Some ("https://" ++ run)
    end
  else if startsWith s "http://" then
    match non_space_run (drop 7 s) with
    | EmptyString => None
    | run => Some ("http://" ++ run)
    end
  else None.

(** [s.match(/(https?:\/\/[^\s]+)/g) || []]: all matches from left to
    right; after a match of length [n] the search resumes [n] characters
    further ([skip] counts the characters of the last match that are still
    to be passed over). *)
Fixpoint match_from (skip : nat) (s : string) : list string :=
  match s with
  | EmptyString => []
  | String _ s' =>
      match skip with
      | S k => match_from k s'
      | O =>
          match urlRegex_at s with
          | Some m => m :: match_from (String.length m - 1) s'
          | None => match_from 0 s'
          end
      end
  end.

Definition match_urlRegex (s : string) : list string := match_from 0 s.

(** A regular expression without repetition: a sequence of character
    classes.  [/g[o0][o0]gle/] is [["g"]; ["o";"0"]; ["o";"0"]; ...]. *)
Definition char_class := list ascii.
Definition pattern := list char_class.

Definition in_class (c : ascii) (cl : char_class) : bool :=
  existsb (Ascii.eqb c) cl.

(** The pattern matches a prefix of [s]. *)
Fixpoint pattern_at (p : pattern) (s : string) {struct p} : bool :=
  match p with
  | [] => true
  | cl :: p' =>
      match s with
      | EmptyString => false
      | String c s' => in_class c cl && pattern_at p' s'
      end
  end.

(** [/p1|p2|.../.test(s)]: some alternative matches at some position. *)
Fixpoint regex_test (alts : list pattern) (s : string) : bool :=
  existsb (fun p => pattern_at p s) alts ||
  match s with
  | EmptyString => false
  | String _ s' => regex_test alts s'
  end.

(** The words a pattern denotes. *)
Fixpoint words_of (p : pattern) : list string :=
  match p with
  | [] => [EmptyString]
  | cl :: p' =>
      flat_map (fun c => map (String c) (words_of p')) cl
  end.

(** A literal as a pattern. *)
Fixpoint lit (s : string) : pattern :=
  match s with
  | EmptyString => []
  | String c s' => [c] :: lit s'
  end.

End JS.

Import JS.

(** [s] contains the word [w]. *)
Definition contains (s w : string) : Prop :=
  exists pre post, s = pre ++ w ++ post.

(** A log of verdicts never goes down: every entry ranks at least as high
    as every entry before it. *)
Definition never_downgrades {A} (rank : A -> nat) (log : list A) : Prop :=
  StronglySorted (fun a b => (rank a <= rank b)%nat) log.

(* ===================================================================== *)
(** ** Math.random as an explicit random source                          *)
(* ===================================================================== *)

(** The random source is the sequence of values [Math.random()] is going to
    return, with the number of values already taken. *)
Record RandomSource := mkRandom {
  draws : nat -> Q;
  taken : nat
}.

(** [Math.random()] returns a number in the half-open interval [0, 1). *)
Definition random_ok (g : RandomSource) : Prop :=
  forall n, (0 <= draws g n)%Q /\ (draws g n < 1)%Q.

Definition Rand (A : Type) : Type := RandomSource -> A * RandomSource.

Definition ret {A} (a : A) : Rand A := fun g => (a, g).

Definition bind {A B} (m : Rand A) (k : A -> Rand B) : Rand B :=
  fun g => let (a, g') := m g in k a g'.

Notation "x <- m ;; k" := (bind m (fun x => k))
  (at level 61, m at next level, right associativity).

Definition Math_random : Rand Q :=
  fun g => (draws g (taken g), mkRandom (draws g) (S (taken g))).

(** [Math.floor(r * n)] *)
Definition floor_times (r : Q) (n : Z) : Z := Qfloor (r * inject_Z n).

(** [r > 0.5] *)
Definition above_half (r : Q) : bool := negb (Qle_bool r (1 # 2)).

(** A source that returns the same value at every call. *)
Definition constant_source (r : Q) : RandomSource := mkRandom (fun _ => r) 0.

(* ===================================================================== *)
(** ** The e-mail form: local heuristic and fall-back policy             *)
(* ===================================================================== *)

Module Email.

(** Modelled from the spec: the type [RiskLevel] of [@/lib/types], whose
    declaration is not among the sources.  The specification gives the
    e-mail verdict the values safe, suspicious and phishing, the three the
    form assigns and compares. *)
Inductive RiskLevel := safe | suspicious | phishing.

Definition tier (r : RiskLevel) : nat :=
  match r with safe => 0 | suspicious => 1 | phishing => 2 end.

Definition RiskLevel_eqb (a b : RiskLevel) : bool :=
  (tier a =? tier b)%nat.

Record FormValues := mkForm {
  sender : string;
  subject : string;
  content : string
}.

Record Link := mkLink { url : string; reason : string }.

Record AnalysisResult := mkResult {
  riskLevel : RiskLevel;
  confidence : Z;
  indicators : list string;
  analysis : string;
  suspiciousLinks : list Link;
  recommendedAction : string
}.

Definition urgentWords : list string :=
  ["urgent"; "immediately"; "alert"; "attention"; "verify"; "suspend";
   "locked"].

Definition sensitiveWords : list string :=
  ["password"; "credit card"; "account"; "login"; "social security";
   "bank"].

(** The three local variables [generateMockAnalysisResult] updates while
    it scans.  [assigned] is a ghost field: the values the variable
    [riskLevel] has held, oldest first, so that the order of the
    assignments can be stated. *)
Record Scan := mkScan {
  s_riskLevel : RiskLevel;
  s_indicators : list string;
  s_links : list Link;
  assigned : list RiskLevel
}.

(** [let riskLevel = 'safe'; const indicators = []; const suspiciousLinks = []] *)
Definition start : Scan := mkScan safe [] [] [safe].

(** [riskLevel = v] *)
Definition set_riskLevel (v : RiskLevel) (s : Scan) : Scan :=
  mkScan v (s_indicators s) (s_links s) (assigned s ++ [v]).

(** [indicators.push(i)] *)
Definition push_indicator (i : string) (s : Scan) : Scan :=
  mkScan (s_riskLevel s) (s_indicators s ++ [i]) (s_links s) (assigned s).

(** [suspiciousLinks.push({url, reason})] *)
Definition push_link (u r : string) (s : Scan) : Scan :=
  mkScan (s_riskLevel s) (s_indicators s) (s_links s ++ [mkLink u r])
         (assigned s).

Definition urgent_indicator := "Uses urgent language to create pressure".
Definition sensitive_indicator := "Requests sensitive personal information".
Definition spoofing_indicator := "Sender domain spoofing detected".
Definition generic_indicator := "Multiple suspicious elements detected".
Definition keyword_reason :=
  "URL contains suspicious keywords related to authentication".
Definition typosquatting_reason :=
  "Possible typosquatting detected (domain mimics popular brand)".

Definition rule_urgent (content subject : string) (s : Scan) : Scan :=
  if existsb (fun word => includes content word || includes subject word)
             urgentWords
  then set_riskLevel suspicious (push_indicator urgent_indicator s)
  else s.

Definition rule_sensitive (content : string) (s : Scan) : Scan :=
  if existsb (fun word => includes content word) sensitiveWords
  then set_riskLevel suspicious (push_indicator sensitive_indicator s)
  else s.

Definition rule_sender (sender : string) (s : Scan) : Scan :=
  if (includes sender "paypal" && negb (endsWith sender "@paypal.com"))
     || (includes sender "amazon" && negb (endsWith sender "@amazon.com"))
     || (includes sender "apple" && negb (endsWith sender "@apple.com"))
  then set_riskLevel phishing (push_indicator spoofing_indicator s)
  else s.

(** The body of [urls.forEach(url => ...)]. *)
Definition rule_url (s : Scan) (u : string) : Scan :=
  let s1 :=
    if includes u "login" || includes u "verify" || includes u "secure"
    then set_riskLevel phishing (push_link u keyword_reason s)
    else s in
  if includes u "paypa1" || includes u "arnazon" || includes u "app1e"
  then set_riskLevel phishing (push_link u typosquatting_reason s1)
  else s1.

Definition rule_generic (s : Scan) : Scan :=
  if RiskLevel_eqb (s_riskLevel s) phishing
     && (List.length (s_indicators s) <? 2)%nat
  then push_indicator generic_indicator s
  else s.

(** The detection rules of [generateMockAnalysisResult], in the order of
    the source. *)
Definition detect (data : FormValues) : Scan :=
  let content := toLowerCase (content data) in
  let sender := toLowerCase (sender data) in
  let subject := toLowerCase (subject data) in
  let urls := match_urlRegex content in
  let s := rule_urgent content subject start in
  let s := rule_sensitive content s in
  let s := rule_sender sender s in
  fold_left rule_url urls s.

(** The scanning part of [generateMockAnalysisResult], up to the
    [return]. *)
Definition scan (data : FormValues) : Scan :=
  rule_generic (detect data).

Definition confidence_of (r : RiskLevel) : Z :=
  match r with phishing => 92 | suspicious => 75 | safe => 88 end.

Definition analysis_of (r : RiskLevel) : string :=
  match r with
  | phishing => "This email contains multiple elements commonly found in phishing attempts, including urgent language, requests for sensitive information, and suspicious links."
  | suspicious => "This email contains some suspicious elements that warrant caution, but may be legitimate."
  | safe => "This email appears to be legitimate with no obvious security concerns detected."
  end.

Definition action_of (r : RiskLevel) : string :=
  match r with
  | phishing => "Block this email and alert the recipient not to interact with it."
  | suspicious => "Review this email carefully before deciding whether to deliver it to the recipient."
  | safe => "No action needed, this email can be delivered normally."
  end.

Definition generateMockAnalysisResult (data : FormValues) : AnalysisResult :=
  let s := scan data in
  mkResult (s_riskLevel s)
           (confidence_of (s_riskLevel s))
           (s_indicators s)
           (analysis_of (s_riskLevel s))
           (s_links s)
           (action_of (s_riskLevel s)).


(** *** Invariants of the scan *)

(** The ghost log ends with the current value of [riskLevel]. *)
Definition well_logged (s : Scan) : Prop :=
  last (assigned s) safe = s_riskLevel s.

(** Nothing above [suspicious] has been assigned yet. *)
Definition below_phishing (s : Scan) : Prop :=
  Forall (fun a => (tier a <= 1)%nat) (assigned s).

Definition sound (s : Scan) : Prop :=
  never_downgrades tier (assigned s) /\ well_logged s.

(** The level has left [safe]. *)
Definition raised (s : Scan) : Prop := s_riskLevel s <> safe.

(** *** The form around the heuristic *)

Section Form.

(** What [response.json()] yields is only stored and displayed, so its
    type is left open.  [error_property j] is the text of [j.error] when
    that property is truthy, and [None] when it is falsy or when reading
    it throws (a [null] body). *)
Variable Json : Type.
Variable error_property : Json -> option string.

Inductive Body :=
| Unparseable (message : string)   (* [response.json()] throws *)
| Parsed (j : Json).

(** How [fetch('/api/analyze-email', ...)] ends. *)
Inductive FetchOutcome :=
| Rejected (message : string)      (* network error: the promise rejects *)
| Responded (ok : bool) (status : Z) (statusText : string) (body : Body).

(** What the results card shows: the payload of the service as it came,
    or a result of the local heuristic. *)
Inductive Shown :=
| FromService (j : Json)
| Local (r : AnalysisResult).

(** The component state; [pending] holds the arguments of the
    [setTimeout(() => handleApiFailure(data), 1500)] calls that have not
    fired yet, oldest first. *)
Record FormState := mkState {
  isAnalyzing : bool;
  analysisResults : option Shown;
  analysisError : option string;
  pending : list FormValues
}.

Definition number_text (z : Z) : string :=
  DecimalString.NilZero.string_of_int (Z.to_int z).

(** The [try] block of [analyzeEmail]: the parsed payload, or the
    message of the error that reaches [catch]. *)
Definition request (o : FetchOutcome) : Json + string :=
  match o with
  | Rejected message => inr message
  | Responded false status statusText body =>
      let errorMessage :=
        "API Error: " ++ number_text status ++ " " ++ statusText in
      inr match body with
          | Parsed errorData =>
              match error_property errorData with
              | Some e => e
              | None => errorMessage
              end
          | Unparseable _ => errorMessage
          end
  | Responded true _ _ (Unparseable message) => inr message
  | Responded true _ _ (Parsed analysisResult) => inl analysisResult
  end.

Definition analyzeEmail (data : FormValues) (o : FetchOutcome)
           (st : FormState) : FormState :=
  match request o with
  | inl analysisResult =>
      mkState false (Some (FromService analysisResult)) None (pending st)
  | inr message =>
      mkState false None (Some message) (pending st ++ [data])
  end.

Definition handleApiFailure (data : FormValues) (st : FormState)
  : FormState :=
  mkState false (Some (Local (generateMockAnalysisResult data)))
          (analysisError st) (pending st).

(** The oldest pending timer fires. *)
Definition timer_fires (st : FormState) : FormState :=
  match pending st with
  | [] => st
  | data :: rest =>
      handleApiFailure data
        (mkState (isAnalyzing st) (analysisResults st) (analysisError st)
                 rest)
  end.

(** All pending timers fire, in the order they were set. *)
Fixpoint timers_fire (n : nat) (st : FormState) : FormState :=
  match n with
  | O => st
  | S k => timers_fire k (timer_fires st)
  end.

Definition after_delay (st : FormState) : FormState :=
  timers_fire (List.length (pending st)) st.

(** The request failed: one of the three ways into [catch]. *)
Inductive failed : FetchOutcome -> Prop :=
| failed_network : forall message, failed (Rejected message)
| failed_status : forall status statusText body,
    failed (Responded false status statusText body)
| failed_payload : forall status statusText message,
    failed (Responded true status statusText (Unparseable message)).

End Form.

Arguments Unparseable {Json}.
Arguments Parsed {Json}.
Arguments Rejected {Json}.
Arguments Responded {Json}.
Arguments FromService {Json}.
Arguments Local {Json}.
Arguments failed {Json}.
Arguments mkState {Json}.
Arguments isAnalyzing {Json}.
Arguments analysisResults {Json}.
Arguments analysisError {Json}.
Arguments pending {Json}.
Arguments request {Json}.
Arguments analyzeEmail {Json}.
Arguments handleApiFailure {Json}.
Arguments timer_fires {Json}.
Arguments timers_fire {Json}.
Arguments after_delay {Json}.

(** The form as it is when the dialog opens. *)
Definition opened {Json} : FormState Json := mkState false None None [].

(** The heuristic as a computation that may draw random numbers; the
    source function calls nothing that does. *)
Definition classify (data : FormValues) : Rand AnalysisResult :=
  ret (generateMockAnalysisResult data).

End Email.

(* ===================================================================== *)
(** ** The URL checker                                                   *)
(* ===================================================================== *)

Module UrlChecker.

Inductive Status := safe | suspicious | malicious.

Definition tier (s : Status) : nat :=
  match s with safe => 0 | suspicious => 1 | malicious => 2 end.

Inductive HttpsStatus := valid | invalid | missing.

Record Details := mkDetails {
  domainAge : string;
  httpsStatus : HttpsStatus;
  redirectCount : Z;
  maliciousPatterns : list string;
  reputationScore : Z;
  category : string
}.

Record UrlCheckResult := mkCheck {
  url : string;
  status : Status;
  confidenceScore : Z;
  details : Details;
  recommendations : list string
}.

(** The one property of a parsed [URL] the checker reads. *)
Record URL := mkURL { hostname : string }.

Definition knownLegitDomains : list string :=
  ["google.com"; "amazon.com"; "facebook.com"; "microsoft.com";
   "apple.com"; "github.com"; "dropbox.com"].

Definition o0 : char_class := ["o"; "0"]%char.
Definition l1 : char_class := ["l"; "1"]%char.

(** [/g[o0][o0]gle|amaz[o0]n|faceb[o0][o0]k|paypa[l1]|micr[o0]s[o0]ft|app[l1]e/] *)
Definition typosquatting : list pattern :=
  [ lit "g" ++ [o0; o0] ++ lit "gle";
    lit "amaz" ++ [o0] ++ lit "n";
    lit "faceb" ++ [o0; o0] ++ lit "k";
    lit "paypa" ++ [l1];
    lit "micr" ++ [o0] ++ lit "s" ++ [o0] ++ lit "ft";
    lit "app" ++ [l1] ++ lit "e" ]%list.

Definition hasTyposquatting (domain : string) : bool :=
  regex_test typosquatting domain.

Definition isKnownPhishingPattern (domain : string) : bool :=
  includes domain "secure-verify" || includes domain "account-update"
  || includes domain "login-confirm".

Definition hasSuspiciousPath (url : string) : bool :=
  includes url "/verify" || includes url "/signin"
  || includes url "/security".

Definition isLegitDomain (domain : string) : bool :=
  existsb (fun d => String.eqb domain d || endsWith domain ("." ++ d))
          knownLegitDomains.

Definition hasSuspiciousKeyword (domain : string) : bool :=
  includes domain "-" || includes domain "secure"
  || includes domain "login".

(** [if (!url.startsWith('http://') && !url.startsWith('https://')) url = 'https://' + url] *)
Definition withScheme (url : string) : string :=
  if negb (startsWith url "http://") && negb (startsWith url "https://")
  then "https://" ++ url
  else url.

(** The local variables of the rule chain; [assigned] is a ghost field,
    the values the variable [status] has held, oldest first. *)
Record Verdict := mkVerdict {
  v_status : Status;
  v_confidence : Z;
  v_patterns : list string;
  assigned : list Status
}.

(** [let status = 'safe'; let confidenceScore = 90; const maliciousPatterns = []] *)
Definition start : Verdict := mkVerdict safe 90 [] [safe].

(** [status = s; confidenceScore = c] *)
Definition set_status (s : Status) (c : Z) (v : Verdict) : Verdict :=
  mkVerdict s c (v_patterns v) (assigned v ++ [s]).

(** [maliciousPatterns.push(p)] *)
Definition push_pattern (p : string) (v : Verdict) : Verdict :=
  mkVerdict (v_status v) (v_confidence v) (v_patterns v ++ [p])
            (assigned v).

Definition phishing_pattern := "Known phishing domain pattern".
Definition typosquatting_pattern :=
  "Potential typosquatting attack (brand impersonation)".
Definition path_pattern := "Suspicious URL path pattern".
Definition keyword_pattern := "Domain contains suspicious keywords".

(** The [if ... else if ...] chain of [analyzeUrl].  [Math.random()] is
    called in the first branch, and in the test of the fourth branch when
    [hasSuspiciousPath] holds and no earlier branch was taken. *)
Definition rules (url domain : string) : Rand Verdict :=
  if isLegitDomain domain then
    r <- Math_random ;;
    ret (set_status safe (floor_times r 5 + 95) start)
  else if isKnownPhishingPattern domain then
    ret (push_pattern phishing_pattern (set_status malicious 95 start))
  else if hasTyposquatting domain then
    ret (push_pattern typosquatting_pattern (set_status malicious 92 start))
  else
    lucky <- (if hasSuspiciousPath url
              then r <- Math_random ;; ret (above_half r)
              else ret false) ;;
    if lucky then
      ret (push_pattern path_pattern (set_status suspicious 75 start))
    else if hasSuspiciousKeyword domain then
      ret (push_pattern keyword_pattern (set_status suspicious 68 start))
    else ret start.

Definition recommendation (s : Status) : string :=
  match s with
  | malicious => "Do not visit this website. It has been identified as potentially harmful."
  | suspicious => "Exercise caution when visiting this website. Do not enter sensitive information."
  | safe => "This website appears to be safe, but always be cautious when entering sensitive information."
  end.

(** [const result: UrlCheckResult = {...}] *)
Definition build (url : string) (v : Verdict) (redirects : Q)
  : UrlCheckResult :=
  let status := v_status v in
  mkCheck url status (v_confidence v)
    (mkDetails
       (match status with safe => "3+ years" | _ => "< 30 days" end)
       (if startsWith url "https://" then valid else missing)
       (floor_times redirects 3)
       (v_patterns v)
       (match status with safe => 85 | suspicious => 45 | malicious => 15 end)
       (match status with safe => "Business/E-commerce"
                     | _ => "Uncategorized" end))
    [recommendation status].

(** The state of the dialog that [analyzeUrl] writes: [urlError] is what
    [form.setError('url', ...)] has set. *)
Record Dialog := mkDialog {
  isChecking : bool;
  checkResult : option UrlCheckResult;
  urlError : option string
}.

Definition invalid_message := "Please enter a valid URL".

Section Checker.

(** [new URL(url)] of the platform: [None] when the constructor
    throws. *)
Variable URL_new : string -> option URL.

Definition validateUrl (url : string) : bool :=
  match url with
  | EmptyString => false
  | _ => match URL_new (withScheme url) with
         | Some _ => true
         | None => false
         end
  end.

(** The classification proper, between [try {] and the delay. *)
Definition evaluate (url : string) (u : URL) : Rand Verdict :=
  rules url (toLowerCase (hostname u)).

Definition analyzeUrl (data_url : string) (st : Dialog) : Rand Dialog :=
  if negb (validateUrl data_url) then
    ret (mkDialog (isChecking st) (checkResult st) (Some invalid_message))
  else
    let url := withScheme data_url in
    match URL_new url with
    | Some u =>
        v <- evaluate url u ;;
        redirects <- Math_random ;;
        ret (mkDialog false (Some (build url v redirects)) (urlError st))
    | None =>
        (* [catch]: the error is logged, no result is set *)
        ret (mkDialog false (checkResult st) (urlError st))
    end.

End Checker.

Definition closed : Dialog := mkDialog false None None.

(** *** Vocabulary for the properties *)

(** The host is a domain of the allow-list or a subdomain of one. *)
Definition on_allow_list (host : string) : Prop :=
  exists d, In d knownLegitDomains
            /\ (host = d \/ exists sub, host = sub ++ "." ++ d).

(** The host contains a word of the brand-impersonation pattern set. *)
Definition impersonates (host : string) : Prop :=
  exists p w, In p typosquatting /\ In w (words_of p) /\ contains host w.

(** The confidence each status can come with. *)
Definition confidence_by_rule (s : Status) (c : Z) : Prop :=
  match s with
  | malicious => c = 95 \/ c = 92
  | suspicious => c = 75 \/ c = 68
  | safe => c = 90 \/ 95 <= c <= 99
  end.

(** What a valid input leaves in the dialog. *)
Definition result_for (input : string) (u : URL) (g : RandomSource)
  : UrlCheckResult :=
  let url := withScheme input in
  let (v, g') := evaluate url u g in
  build url v (fst (Math_random g')).

End UrlChecker.

(* ===================================================================== *)
(** ** A model of the platform's URL constructor                         *)
(* ===================================================================== *)

(** [new URL(s).hostname] after the URL Standard, for the inputs the checker
    builds (they start with [http://] or [https://]) and for hosts that are
    plain ASCII domain names.  The model is used for the concrete scenarios
    only; the general statements hold for any constructor.  Not modelled,
    and rejected here although the standard accepts some of them: hosts
    with percent escapes, characters above U+007F or [xn--] labels (IDNA),
    bracketed IPv6 literals, and hosts whose last label is a number
    (IPv4). *)
Module WHATWG.

Definition code (c : ascii) : nat := nat_of_ascii c.

Definition is_c0_or_space (c : ascii) : bool := (code c <=? 32)%nat.

Fixpoint strip_leading (s : string) : string :=
  match s with
  | EmptyString => EmptyString
  | String c s' => if is_c0_or_space c then strip_leading s' else s
  end.

Fixpoint strip_trailing (s : string) : string :=
  match s with
  | EmptyString => EmptyString
  | String c s' =>
      match strip_trailing s' with
      | EmptyString => if is_c0_or_space c then EmptyString
                       else String c EmptyString
      | t => String c t
      end
  end.

Definition is_tab_or_newline (c : ascii) : bool :=
  ((code c =? 9) || (code c =? 10) || (code c =? 13))%nat.

Fixpoint remove_tab_newline (s : string) : string :=
  match s with
  | EmptyString => EmptyString
  | String c s' => if is_tab_or_newline c then remove_tab_newline s'
                   else String c (remove_tab_newline s')
  end.

Definition is_slash (c : ascii) : bool :=
  Ascii.eqb c "/" || Ascii.eqb c "\".

Fixpoint skip_slashes (s : string) : string :=
  match s with
  | EmptyString => EmptyString
  | String c s' => if is_slash c then skip_slashes s' else s
  end.

Definition ends_authority (c : ascii) : bool :=
  is_slash c || Ascii.eqb c "?" || Ascii.eqb c "#".

Fixpoint authority (s : string) : string :=
  match s with
  | EmptyString => EmptyString
  | String c s' => if ends_authority c then EmptyString
                   else String c (authority s')
  end.

(** What follows the last [@], when there is one. *)
Fixpoint after_last_at (s : string) : option string :=
  match s with
  | EmptyString => None
  | String c s' =>
      match after_last_at s' with
      | Some t => Some t
      | None => if Ascii.eqb c "@" then Some s' else None
      end
  end.

(** Host and port: split at the first colon. *)
Fixpoint split_port (s : string) : string * option string :=
  match s with
  | EmptyString => (EmptyString, None)
  | String c s' =>
      if Ascii.eqb c ":" then (EmptyString, Some s')
      else let (h, p) := split_port s' in (String c h, p)
  end.

Definition is_digit (c : ascii) : bool :=
  ((48 <=? code c) && (code c <=? 57))%nat.

Definition is_hex (c : ascii) : bool :=
  is_digit c || ((97 <=? code c) && (code c <=? 102))%nat
  || ((65 <=? code c) && (code c <=? 70))%nat.

Fixpoint all_chars (f : ascii -> bool) (s : string) : bool :=
  match s with
  | EmptyString => true
  | String c s' => f c && all_chars f s'
  end.

Fixpoint port_value (acc : Z) (s : string) : Z :=
  match s with
  | EmptyString => acc
  | String c s' => port_value (10 * acc + Z.of_nat (code c - 48)) s'
  end.

Definition port_ok (p : option string) : bool :=
  match p with
  | None => true
  | Some digits => all_chars is_digit digits && (port_value 0 digits <=? 65535)
  end.

(** Forbidden domain code points, within ASCII. *)
Definition forbidden (c : ascii) : bool :=
  (code c <=? 32)%nat || (code c =? 127)%nat
  || in_class c ["#"; "/"; ":"; "<"; ">"; "?"; "@"; "["; "\"; "]"; "^";
                 "|"; "%"]%char.

(** The labels of a domain, last first. *)
Fixpoint labels_from (cur : string) (acc : list string) (s : string)
  : list string :=
  match s with
  | EmptyString => cur :: acc
  | String c s' =>
      if Ascii.eqb c "." then labels_from EmptyString (cur :: acc) s'
      else labels_from (cur ++ String c EmptyString) acc s'
  end.

Definition labels (s : string) : list string :=
  labels_from EmptyString [] s.

Definition is_number (label : string) : bool :=
  match label with
  | EmptyString => false
  | _ =>
      all_chars is_digit label
      || ((startsWith label "0x" || startsWith label "0X")
          && all_chars is_hex (drop 2 label))
  end.

Definition ends_in_a_number (domain : string) : bool :=
  match labels domain with
  | EmptyString :: last :: _ => is_number last
  | last :: _ => is_number last
  | [] => false
  end.

Definition outside_model (host : string) : bool :=
  negb (all_chars (fun c => (code c <? 128)%nat) host)
  || includes host "%" || includes host "["
  || existsb (fun l => startsWith (toLowerCase l) "xn--") (labels host)
  || ends_in_a_number host.

Definition parse_host (host : string) : option string :=
  if outside_model host then None
  else
    let domain := toLowerCase host in
    if negb (all_chars (fun c => negb (forbidden c)) domain) then None
    else match domain with
         | EmptyString => None
         | _ => Some domain
         end.

Definition after_scheme (s : string) : option string :=
  if startsWith s "https:" then Some (drop 6 s)
  else if startsWith s "http:" then Some (drop 5 s)
  else None.

Definition hostname_of (input : string) : option string :=
  let s := remove_tab_newline (strip_trailing (strip_leading input)) in
  match after_scheme s with
  | None => None
  | Some rest =>
      let auth := authority (skip_slashes rest) in
      let hostport := match after_last_at auth with
                      | Some t => t
                      | None => auth
                      end in
      let (host, port) := split_port hostport in
      if port_ok port then parse_host host else None
  end.

Definition URL_new (input : string) : option UrlChecker.URL :=
  option_map UrlChecker.mkURL (hostname_of input).

End WHATWG.

(* ===================================================================== *)
(** ** The scenarios of the specification                                *)
(* ===================================================================== *)

Module Scenario.

(** The e-mail of the third example scenario. *)
Definition paypa1_mail : Email.FormValues :=
  Email.mkForm "support@paypa1-alerts.com" "Urgent: verify your account"
               "Please login at https://paypa1.com/verify".

(** A mail whose only keyword is a sensitive-data word in the subject. *)
Definition password_subject : Email.FormValues :=
  Email.mkForm "friend@example.org" "Your password" "See you tomorrow".

(** A mail with one link and no keyword outside it. *)
Definition bare_link : Email.FormValues :=
  Email.mkForm "friend@example.org" "Hello" "Look: http://example.org/secure".

(** One of the indicators mentions [word], whatever the case. *)
Definition mentions (word : string) (indicators : list string) : Prop :=
  exists i, In i indicators /\ contains (toLowerCase i) word.

(** The confidence bands as the specification gives them, by tier: 90-95
    for phishing or malicious, 70-80 for suspicious, 85-99 for safe. *)
Definition stated_band (tier : nat) (c : Z) : Prop :=
  match tier with
  | 2%nat => 90 <= c <= 95
  | 1%nat => 70 <= c <= 80
  | _ => 85 <= c <= 99
  end.

(** The bands the URL checker keeps: the suspicious one starts at 68. *)
Definition kept_band (s : UrlChecker.Status) (c : Z) : Prop :=
  match s with
  | UrlChecker.malicious => 90 <= c <= 95
  | UrlChecker.suspicious => 68 <= c <= 80
  | UrlChecker.safe => 85 <= c <= 99
  end.

Definition checked (input : string) (g : RandomSource)
  : option (UrlChecker.Status * Z) :=
  option_map (fun r => (UrlChecker.status r, UrlChecker.confidenceScore r))
    (UrlChecker.checkResult
       (fst (UrlChecker.analyzeUrl WHATWG.URL_new input UrlChecker.closed g))).

End Scenario.

(* ===================================================================== *)
(** ** The e-mail form: adding the analysed mail to the dashboard        *)
(* ===================================================================== *)

Module AddEmailForm.
Import Email.

(** A [Map] from strings to strings: its entries in insertion order;
    [set] on a key that is present replaces the value in place. *)
Definition StringMap := list (string * string).

Fixpoint map_set (k v : string) (m : StringMap) : StringMap :=
  match m with
  | [] => [(k, v)]
  | (k', v') :: m' =>
      if String.eqb k' k then (k', v) :: m'
      else (k', v') :: map_set k v m'
  end.

Fixpoint map_get (k : string) (m : StringMap) : option string :=
  match m with
  | [] => None
  | (k', v') :: m' => if String.eqb k' k then Some v' else map_get k m'
  end.

Definition map_has (k : string) (m : StringMap) : bool :=
  match map_get k m with Some _ => true | None => false end.

(** An element of the [links] of a dashboard mail. *)
Record DisplayLink := mkDisplay {
  link_url : string;
  isSuspicious : bool;
  link_reason : string
}.

(** [suspiciousMap.set(link.url, link.reason)] *)
Definition put (m : StringMap) (link : Link) : StringMap :=
  map_set (url link) (reason link) m.

(** [suspiciousLinks.forEach(link => suspiciousMap.set(...))] *)
Definition suspiciousMap_of (suspiciousLinks : list Link) : StringMap :=
  fold_left put suspiciousLinks [].

(** [formatLinks]: the regular expression runs on the content as typed. *)
Definition formatLinks (suspiciousLinks : list Link) (content : string)
  : list DisplayLink :=
  let allLinks := match_urlRegex content in
  let suspiciousMap := suspiciousMap_of suspiciousLinks in
  map (fun u =>
         mkDisplay u (map_has u suspiciousMap)
           (match map_get u suspiciousMap with   (* [get(url) || ''] *)
            | Some r => r
            | None => ""
            end))
      allLinks.

(** The three values of [EmailStatus] that [onSubmit] uses. *)
Inductive EmailStatus := flagged | reviewing | cleared.

(** The object [onSubmit] builds and hands to [onAddEmail], field by field
    (the declaration of its type [Email] in [@/lib/types] is not among the
    sources). *)
Record DashboardEmail := mkEmail {
  id : Z;
  e_sender : string;
  e_subject : string;
  e_content : string;
  receivedAt : string;
  e_riskLevel : RiskLevel;
  e_status : EmailStatus;
  e_indicators : list string;
  recipient : string;
  links : list DisplayLink;
  attachments : list string
}.

(** What [onSubmit] reads from outside the form: [Date.now()],
    [new Date().toISOString()] and [authUser?.email] ([None] when there is
    no user). *)
Record Outside := mkOutside {
  Date_now : Z;
  Date_iso : string;
  authUser_email : option string
}.

Definition default_recipient := "security@company.com".

(** [authUser?.email || 'security@company.com'] *)
Definition recipient_of (env : Outside) : string :=
  match authUser_email env with
  | Some EmptyString => default_recipient
  | Some e => e
  | None => default_recipient
  end.

Definition status_of (r : RiskLevel) : EmailStatus :=
  match r with
  | phishing => flagged
  | suspicious => reviewing
  | safe => cleared
  end.

(** [const newEmail: Email = {...}] *)
Definition newEmail (env : Outside) (data : FormValues)
           (analysisResults : AnalysisResult) : DashboardEmail :=
  mkEmail (Date_now env) (sender data) (subject data) (content data)
          (Date_iso env)
          (riskLevel analysisResults)
          (status_of (riskLevel analysisResults))
          (indicators analysisResults)
          (recipient_of env)
          (formatLinks (suspiciousLinks analysisResults) (content data))
          [].

Section Submit.

Variable Json : Type.
Variable error_property : Json -> option string.

(** The payload of the service read at the type [AnalysisResult] that the
    form declares for it. *)
Variable as_result : Json -> AnalysisResult.

(** The form with its dialog: [added] lists the mails handed to
    [onAddEmail], oldest first.  The values of the fields come with each
    submission, so [form.reset()] leaves no trace here. *)
Record Form := mkFormUI {
  state : FormState Json;
  isOpen : bool;
  added : list DashboardEmail
}.

Definition shown_result (s : Shown Json) : AnalysisResult :=
  match s with
  | FromService j => as_result j
  | Local r => r
  end.

(** [onSubmit(data)]; [o] is how the request ends if one is sent. *)
Definition onSubmit (env : Outside) (o : FetchOutcome Json)
           (data : FormValues) (f : Form) : Form :=
  match analysisResults (state f) with
  | None =>
      mkFormUI (analyzeEmail error_property data o (state f))
               (isOpen f) (added f)
  | Some s =>
      mkFormUI (mkState (isAnalyzing (state f)) None
                        (analysisError (state f)) (pending (state f)))
               false
               (added f ++ [newEmail env data (shown_result s)])
  end.

(** [handleDialogChange(open)] *)
Definition handleDialogChange (open : bool) (f : Form) : Form :=
  if open then mkFormUI (state f) true (added f)
  else mkFormUI (mkState (isAnalyzing (state f)) None None
                         (pending (state f)))
                false (added f).

(** The pending timers fire. *)
Definition delay_passes (f : Form) : Form :=
  mkFormUI (after_delay (state f)) (isOpen f) (added f).

End Submit.

Arguments mkFormUI {Json}.
Arguments state {Json}.
Arguments isOpen {Json}.
Arguments added {Json}.
Arguments onSubmit {Json}.
Arguments handleDialogChange {Json}.
Arguments delay_passes {Json}.

(** The form when its dialog has just been opened for the first time. *)
Definition fresh {Json} : Form Json := mkFormUI opened true [].

(** *** Vocabulary for the properties *)

(** The two tests [generateMockAnalysisResult] makes on a link. *)
Definition keyword_url (u : string) : bool :=
  includes u "login" || includes u "verify" || includes u "secure".

Definition lookalike_url (u : string) : bool :=
  includes u "paypa1" || includes u "arnazon" || includes u "app1e".

Definition flagged_url (u : string) : bool :=
  keyword_url u || lookalike_url u.

(** The entries one link adds to [suspiciousLinks]. *)
Definition link_entries (u : string) : list Link :=
  ((if keyword_url u then [mkLink u keyword_reason] else [])
   ++ (if lookalike_url u then [mkLink u typosquatting_reason] else []))%list.

(** The reason the dashboard keeps for a flagged link: the last one set. *)
Definition kept_reason (u : string) : string :=
  if lookalike_url u then typosquatting_reason
  else if keyword_url u then keyword_reason
  else "".

(** The tests of the first three rules, on the data of the form. *)
Definition urgent_hit (data : FormValues) : bool :=
  existsb (fun word => includes (toLowerCase (content data)) word
                       || includes (toLowerCase (subject data)) word)
          urgentWords.

Definition sensitive_hit (data : FormValues) : bool :=
  existsb (fun word => includes (toLowerCase (content data)) word)
          sensitiveWords.

Definition spoofed (data : FormValues) : bool :=
  let sender := toLowerCase (sender data) in
  (includes sender "paypal" && negb (endsWith sender "@paypal.com"))
  || (includes sender "amazon" && negb (endsWith sender "@amazon.com"))
  || (includes sender "apple" && negb (endsWith sender "@apple.com")).

(** The sender names the brand without writing from its domain. *)
Definition spoofs (sender brand : string) : Prop :=
  contains sender brand
  /\ ~ exists pre, sender = pre ++ "@" ++ brand ++ ".com".

(** The links the heuristic looks at. *)
Definition urls_of (data : FormValues) : list string :=
  match_urlRegex (toLowerCase (content data)).

(** A mail whose one link is written with capital letters. *)
Definition capitals_mail : FormValues :=
  mkForm "friend@example.org" "Hello" "Visit https://PayPa1.com/Verify".

(** The message shown for a response that is not a success and carries no
    error text. *)
Definition status_message (status : Z) (statusText : string) : string :=
  "API Error: " ++ number_text status ++ " " ++ statusText.

(** The data of the form in lower case. *)
Definition lowered (data : FormValues) : FormValues :=
  mkForm (toLowerCase (sender data)) (toLowerCase (subject data))
         (toLowerCase (content data)).

(** The string is its own lower-case form. *)
Definition lower_case (s : string) : Prop := toLowerCase s = s.

End AddEmailForm.

(* ===================================================================== *)
(** ** The URL checker: examples and reset                               *)
(* ===================================================================== *)

Module UrlDialog.
Import UrlChecker.

(** [defaultExamples]: URL and description. *)
Definition defaultExamples : list (string * string) :=
  [ ("google.com", "Legitimate search engine");
    ("amazon.com", "Legitimate e-commerce site");
    ("g00gle.com", "Typosquatting domain (zeros instead of 'o's)");
    ("paypa1.com", "Typosquatting domain (number '1' instead of 'l')");
    ("microsoft-secure-auth.com", "Suspicious domain with brand name");
    ("facebook.com", "Legitimate social media site");
    ("faceb00k-security.net", "Typosquatting domain with suspicious subdomain");
    ("dropbox.com", "Legitimate cloud storage");
    ("account-verify-apple.com", "Suspicious domain with verification keywords");
    ("github.com", "Legitimate code repository") ].

(** The dialog with the field of its form and the examples panel. *)
Record Panel := mkPanel {
  dialog : Dialog;
  urlField : string;
  showExamples : bool
}.

Section Panel.

Variable URL_new : string -> option URL.

(** [checkExampleUrl(url)] *)
Definition checkExampleUrl (u : string) (p : Panel) : Rand Panel :=
  d <- analyzeUrl URL_new u (dialog p) ;;
  ret (mkPanel d u false).

(** The button "Check Another URL": [form.reset(); setCheckResult(null)]. *)
Definition checkAnother (p : Panel) : Panel :=
  mkPanel (mkDialog (isChecking (dialog p)) None None) "" (showExamples p).

End Panel.

(** The verdict of a run, when it produced a result. *)
Definition verdict (d : Dialog) : option Status :=
  option_map status (checkResult d).

(** The three words the known-phishing rule looks for. *)
Definition known_phishing (host : string) : Prop :=
  contains host "secure-verify" \/ contains host "account-update"
  \/ contains host "login-confirm".

(** The three words the keyword rule looks for. *)
Definition suspicious_keyword (host : string) : Prop :=
  contains host "-" \/ contains host "secure" \/ contains host "login".

End UrlDialog.

(* ===================================================================== *)
(** ** Facts about the string primitives                                 *)
(* ===================================================================== *)


Section StringFacts.

Lemma append_assoc (a b c : string) : (a ++ b) ++ c = a ++ b ++ c.
Proof. induction a as [|x a IH]; simpl; [reflexivity | now rewrite IH]. Qed.

Lemma append_empty_r (a : string) : a ++ "" = a.
Proof. induction a as [|x a IH]; simpl; [reflexivity | now rewrite IH]. Qed.

Lemma startsWith_append (p s : string) : startsWith (p ++ s) p = true.
Proof.
  induction p as [|c p IH]; simpl; [reflexivity |].
  now rewrite Ascii.eqb_refl, IH.
Qed.

Lemma startsWith_split (s p : string) :
  startsWith s p = true -> exists rest, s = p ++ rest.
Proof.
  revert s; induction p as [|b p IH]; intros s H.
  - exists s; reflexivity.
  - destruct s as [|a s]; simpl in H; [discriminate |].
    apply andb_true_iff in H as [Hc Hs].
    apply Ascii.eqb_eq in Hc; subst b.
    destruct (IH _ Hs) as [rest ->].
    exists rest; reflexivity.
Qed.

Lemma includes_here (s p : string) :
  startsWith s p = true -> includes s p = true.
Proof. intros H; destruct s; simpl in *; rewrite H; reflexivity. Qed.

Lemma includes_later (c : ascii) (s p : string) :
  includes s p = true -> includes (String c s) p = true.
Proof. intros H; simpl; rewrite H; apply orb_true_r. Qed.

Lemma includes_contains (s p : string) :
  includes s p = true <-> contains s p.
Proof.
  split.
  - induction s as [|c s IH]; simpl; intros H.
    + rewrite orb_false_r in H.
      destruct (startsWith_split _ _ H) as [rest E].
      exists "", rest; exact E.
    + apply orb_true_iff in H as [H | H].
      * destruct (startsWith_split _ _ H) as [rest E].
        exists "", rest; exact E.
      * destruct (IH H) as (pre & post & ->).
        exists (String c pre), post; reflexivity.
  - intros (pre & post & ->).
    induction pre as [|c pre IH]; simpl append.
    + apply includes_here, startsWith_append.
    + apply includes_later, IH.
Qed.

Lemma endsWith_suffix (s p : string) :
  endsWith s p = true <-> exists pre, s = pre ++ p.
Proof.
  split.
  - induction s as [|c s IH]; cbn [endsWith]; intros H.
    + rewrite orb_false_r in H. apply String.eqb_eq in H; subst p.
      exists ""; reflexivity.
    + apply orb_true_iff in H as [H | H].
      * apply String.eqb_eq in H; subst p. exists ""; reflexivity.
      * destruct (IH H) as [pre ->]. exists (String c pre); reflexivity.
  - intros [pre ->].
    induction pre as [|c pre IH]; simpl append.
    + destruct p; cbn [endsWith]; rewrite String.eqb_refl; reflexivity.
    + cbn [endsWith]. rewrite IH. apply orb_true_r.
Qed.

Lemma in_class_In (c : ascii) (cl : char_class) :
  in_class c cl = true <-> In c cl.
Proof.
  unfold in_class. rewrite existsb_exists. split.
  - intros (x & Hx & E). apply Ascii.eqb_eq in E; now subst.
  - intros H. exists c; split; [exact H | apply Ascii.eqb_refl].
Qed.

(** A pattern matches at the head of [s] exactly when [s] starts with one
    of its words. *)
Lemma pattern_at_words (p : pattern) (s : string) :
  pattern_at p s = true <->
  exists w rest, In w (words_of p) /\ s = w ++ rest.
Proof.
  revert s; induction p as [|cl p IH]; intros s; simpl.
  - split; [intros _ | reflexivity].
    exists "", s; split; [now left | reflexivity].
  - destruct s as [|c s].
    + split; [discriminate |].
      intros (w & rest & Hw & E).
      apply in_flat_map in Hw as (x & _ & Hw).
      apply in_map_iff in Hw as (w' & <- & _). discriminate.
    + rewrite andb_true_iff, in_class_In, IH. split.
      * intros (Hc & w & rest & Hw & ->).
        exists (String c w), rest; split; [| reflexivity].
        apply in_flat_map. exists c; split; [exact Hc |].
        now apply in_map.
      * intros (w & rest & Hw & E).
        apply in_flat_map in Hw as (x & Hx & Hw).
        apply in_map_iff in Hw as (w' & <- & Hw').
        simpl in E. injection E as -> ->.
        split; [exact Hx |]. now exists w', rest.
Qed.

(** The test of an alternation succeeds exactly when [s] contains a word
    of one of the alternatives. *)
Lemma regex_test_contains (alts : list pattern) (s : string) :
  regex_test alts s = true <->
  exists p w, In p alts /\ In w (words_of p) /\ contains s w.
Proof.
  split.
  - induction s as [|c s IH]; simpl; intros H.
    + rewrite orb_false_r in H.
      apply existsb_exists in H as (p & Hp & Hm).
      apply pattern_at_words in Hm as (w & rest & Hw & E).
      exists p, w; repeat split; try assumption.
      exists "", rest; exact E.
    + apply orb_true_iff in H as [H | H].
      * apply existsb_exists in H as (p & Hp & Hm).
        apply pattern_at_words in Hm as (w & rest & Hw & E).
        exists p, w; repeat split; try assumption.
        exists "", rest; exact E.
      * destruct (IH H) as (p & w & Hp & Hw & pre & post & ->).
        exists p, w; repeat split; try assumption.
        exists (String c pre), post; reflexivity.
  - intros (p & w & Hp & Hw & pre & post & ->).
    induction pre as [|c pre IH]; simpl append.
    + assert (M : existsb (fun q => pattern_at q (w ++ post)) alts = true).
      { apply existsb_exists. exists p; split; [exact Hp |].
        apply pattern_at_words. now exists w, post. }
      destruct (w ++ post); simpl; rewrite M; reflexivity.
    + simpl. rewrite IH. apply orb_true_r.
Qed.

End StringFacts.

(* ===================================================================== *)
(** ** Verdict logs                                                      *)
(* ===================================================================== *)


Lemma never_downgrades_snoc {A} (rank : A -> nat) (log : list A) (v : A) :
  never_downgrades rank log ->
  Forall (fun a => (rank a <= rank v)%nat) log ->
  never_downgrades rank (log ++ [v]).
Proof.
  unfold never_downgrades.
  induction log as [|a log IH]; simpl; intros S F.
  - repeat constructor.
  - apply StronglySorted_inv in S as [S Ha].
    apply Forall_cons_iff in F as [Fa F].
    constructor; [now apply IH |].
    apply Forall_app; split; [exact Ha | now constructor].
Qed.

Lemma last_snoc {A} (l : list A) (v d : A) : last (l ++ [v]) d = v.
Proof. apply last_last. Qed.

(* ===================================================================== *)
(** ** Facts about the e-mail heuristic                                  *)
(* ===================================================================== *)

Module EmailFacts.
Import Email.


Lemma tier_max (a : RiskLevel) : (tier a <= tier phishing)%nat.
Proof. destruct a; simpl; lia. Qed.

Lemma all_below_phishing (log : list RiskLevel) :
  Forall (fun a => (tier a <= tier phishing)%nat) log.
Proof. apply Forall_forall; intros a _; apply tier_max. Qed.

Lemma start_sound : sound start /\ below_phishing start.
Proof.
  repeat split.
  - repeat constructor.
  - repeat constructor.
Qed.

Lemma set_suspicious_sound (s : Scan) :
  sound s /\ below_phishing s ->
  sound (set_riskLevel suspicious s)
  /\ below_phishing (set_riskLevel suspicious s).
Proof.
  intros [[M W] B]. unfold sound, well_logged, below_phishing; simpl.
  repeat split.
  - apply never_downgrades_snoc; [exact M | exact B].
  - apply last_snoc.
  - apply Forall_app; split; [exact B | repeat constructor].
Qed.

Lemma set_phishing_sound (s : Scan) :
  sound s -> sound (set_riskLevel phishing s).
Proof.
  intros [M W]. unfold sound, well_logged; simpl. split.
  - apply never_downgrades_snoc; [exact M | apply all_below_phishing].
  - apply last_snoc.
Qed.

Lemma rule_urgent_sound (c subj : string) (s : Scan) :
  sound s /\ below_phishing s ->
  sound (rule_urgent c subj s) /\ below_phishing (rule_urgent c subj s).
Proof.
  intros H. unfold rule_urgent.
  destruct (existsb _ urgentWords); [| exact H].
  apply set_suspicious_sound. exact H.
Qed.

Lemma rule_sensitive_sound (c : string) (s : Scan) :
  sound s /\ below_phishing s ->
  sound (rule_sensitive c s) /\ below_phishing (rule_sensitive c s).
Proof.
  intros H. unfold rule_sensitive.
  destruct (existsb _ sensitiveWords); [| exact H].
  apply set_suspicious_sound. exact H.
Qed.

Lemma rule_sender_sound (sd : string) (s : Scan) :
  sound s -> sound (rule_sender sd s).
Proof.
  intros H. unfold rule_sender.
  match goal with |- sound (if ?b then _ else _) => destruct b end;
    [| exact H].
  apply set_phishing_sound. exact H.
Qed.

Lemma rule_url_sound (s : Scan) (u : string) :
  sound s -> sound (rule_url s u).
Proof.
  intros H. unfold rule_url.
  repeat match goal with
         | |- context [if ?b then _ else _] => destruct b
         end;
    repeat apply set_phishing_sound; exact H.
Qed.

Lemma fold_rule_url_sound (urls : list string) (s : Scan) :
  sound s -> sound (fold_left rule_url urls s).
Proof.
  revert s; induction urls as [|u urls IH]; intros s H; simpl.
  - exact H.
  - apply IH, rule_url_sound, H.
Qed.

Lemma detect_sound (data : FormValues) : sound (detect data).
Proof.
  unfold detect.
  apply fold_rule_url_sound, rule_sender_sound.
  apply rule_sensitive_sound, rule_urgent_sound, start_sound.
Qed.

Lemma rule_generic_log (s : Scan) :
  assigned (rule_generic s) = assigned s
  /\ s_riskLevel (rule_generic s) = s_riskLevel s.
Proof. unfold rule_generic; destruct (_ && _); split; reflexivity. Qed.

Lemma scan_sound (data : FormValues) : sound (scan data).
Proof.
  unfold scan, sound, well_logged.
  destruct (rule_generic_log (detect data)) as [-> ->].
  apply detect_sound.
Qed.


Lemma rule_sensitive_raised (c : string) (s : Scan) :
  raised s -> raised (rule_sensitive c s).
Proof.
  unfold rule_sensitive, raised.
  destruct (existsb _ sensitiveWords); simpl; [discriminate | trivial].
Qed.

Lemma rule_sender_raised (sd : string) (s : Scan) :
  raised s -> raised (rule_sender sd s).
Proof.
  unfold rule_sender, raised.
  match goal with |- _ -> s_riskLevel (if ?b then _ else _) <> _ =>
    destruct b end; simpl; [discriminate | trivial].
Qed.

Lemma rule_url_raised (s : Scan) (u : string) :
  raised s -> raised (rule_url s u).
Proof.
  unfold rule_url, raised.
  repeat match goal with
         | |- context [if ?b then _ else _] => destruct b
         end; simpl; try discriminate; trivial.
Qed.

Lemma fold_rule_url_raised (urls : list string) (s : Scan) :
  raised s -> raised (fold_left rule_url urls s).
Proof.
  revert s; induction urls as [|u urls IH]; intros s H; simpl.
  - exact H.
  - apply IH, rule_url_raised, H.
Qed.

Lemma rule_urgent_fires (c subj : string) (s : Scan) :
  (exists w, In w urgentWords /\ (contains c w \/ contains subj w)) ->
  raised (rule_urgent c subj s).
Proof.
  intros (w & Hw & Hc). unfold rule_urgent, raised.
  assert (E : existsb (fun word => includes c word || includes subj word)
                      urgentWords = true).
  { apply existsb_exists. exists w; split; [exact Hw |].
    apply orb_true_iff.
    destruct Hc as [Hc | Hc]; [left | right];
      now apply includes_contains. }
  rewrite E; simpl; discriminate.
Qed.

Lemma rule_sensitive_fires (c : string) (s : Scan) :
  (exists w, In w sensitiveWords /\ contains c w) ->
  raised (rule_sensitive c s).
Proof.
  intros (w & Hw & Hc). unfold rule_sensitive, raised.
  assert (E : existsb (fun word => includes c word) sensitiveWords = true).
  { apply existsb_exists. exists w; split; [exact Hw |].
    now apply includes_contains. }
  rewrite E; simpl; discriminate.
Qed.

(** With [phishing] as the level, the indicator list that is returned is
    never empty. *)
Lemma rule_generic_indicators (s : Scan) :
  s_riskLevel s = phishing ->
  s_indicators (rule_generic s) <> [].
Proof.
  intros H. unfold rule_generic. rewrite H. simpl.
  destruct (List.length (s_indicators s) <? 2)%nat eqn:L; simpl.
  - intros E. symmetry in E. exact (app_cons_not_nil _ _ _ E).
  - intros E. rewrite E in L. discriminate.
Qed.

Lemma rule_generic_appends (s : Scan) :
  s_riskLevel s = phishing ->
  (List.length (s_indicators s) < 2)%nat ->
  s_indicators (rule_generic s) = (s_indicators s ++ [generic_indicator])%list.
Proof.
  intros H L. unfold rule_generic. rewrite H. simpl.
  apply Nat.ltb_lt in L. rewrite L. reflexivity.
Qed.

End EmailFacts.

(* ===================================================================== *)
(** ** Facts about the URL checker                                       *)
(* ===================================================================== *)

Module UrlFacts.
Import UrlChecker.


Lemma isLegitDomain_spec (host : string) :
  isLegitDomain host = true <-> on_allow_list host.
Proof.
  unfold isLegitDomain, on_allow_list. rewrite existsb_exists.
  split; intros (d & Hd & H); exists d; (split; [exact Hd |]).
  - apply orb_true_iff in H as [H | H].
    + left. now apply String.eqb_eq.
    + right. now apply endsWith_suffix.
  - apply orb_true_iff. destruct H as [H | H].
    + left. now apply String.eqb_eq.
    + right. now apply endsWith_suffix.
Qed.

Lemma hasTyposquatting_spec (host : string) :
  hasTyposquatting host = true <-> impersonates host.
Proof. apply regex_test_contains. Qed.

(** [Math.floor(Math.random() * n)] is one of [0 .. n-1]. *)
Lemma floor_times_range (r : Q) (n : Z) :
  (0 <= r)%Q -> (r < 1)%Q -> 0 < n -> 0 <= floor_times r n < n.
Proof.
  intros H0 H1 Hn. unfold floor_times.
  assert (Pn : (0 < inject_Z n)%Q).
  { change 0%Q with (inject_Z 0). now rewrite <- Zlt_Qlt. }
  split.
  - change 0 with (Qfloor 0). apply Qfloor_resp_le.
    apply Qmult_le_0_compat; [exact H0 | now apply Qlt_le_weak].
  - rewrite Zlt_Qlt.
    apply Qle_lt_trans with (r * inject_Z n)%Q; [apply Qfloor_le |].
    apply Qlt_le_trans with (1 * inject_Z n)%Q.
    + now apply Qmult_lt_compat_r.
    + rewrite Qmult_1_l. apply Qle_refl.
Qed.

Lemma taken_draw_ok (g : RandomSource) :
  random_ok g -> (0 <= draws g (taken g))%Q /\ (draws g (taken g) < 1)%Q.
Proof. intros H; apply H. Qed.

Ltac run :=
  unfold rules, bind, ret, Math_random;
  repeat match goal with
         | |- context [if ?b then _ else _] => destruct b eqn:?
         end; simpl.

(** The ghost log of the rule chain never goes down and ends with the
    status that is returned. *)
Lemma rules_sound (url domain : string) (g : RandomSource) :
  let v := fst (rules url domain g) in
  never_downgrades tier (assigned v)
  /\ last (assigned v) safe = v_status v.
Proof.
  run; split; try reflexivity;
    repeat (constructor; simpl; try lia).
Qed.

Lemma rules_malicious_explained (url domain : string) (g : RandomSource) :
  let v := fst (rules url domain g) in
  v_status v = malicious -> v_patterns v <> [].
Proof. run; intros; discriminate. Qed.

Lemma rules_allow_list (url domain : string) (g : RandomSource) :
  isLegitDomain domain = true ->
  let v := fst (rules url domain g) in
  v_status v = safe /\ v_patterns v = []
  /\ v_confidence v = floor_times (draws g (taken g)) 5 + 95.
Proof.
  intros H. unfold rules. rewrite H. simpl. repeat split.
Qed.

Lemma rules_impersonation (url domain : string) (g : RandomSource) :
  isLegitDomain domain = false ->
  hasTyposquatting domain = true ->
  let v := fst (rules url domain g) in
  v_status v = malicious
  /\ (v_patterns v = [phishing_pattern] /\ v_confidence v = 95
      \/ v_patterns v = [typosquatting_pattern] /\ v_confidence v = 92).
Proof.
  intros H T. unfold rules. rewrite H, T.
  destruct (isKnownPhishingPattern domain); simpl; split; auto.
Qed.


Lemma rules_confidence (url domain : string) (g : RandomSource) :
  random_ok g ->
  let v := fst (rules url domain g) in
  confidence_by_rule (v_status v) (v_confidence v).
Proof.
  intros G.
  destruct (taken_draw_ok g G) as [H0 H1].
  pose proof (floor_times_range _ 5 H0 H1 eq_refl) as F.
  run; auto; right; lia.
Qed.

Section Checker.
Variable URL_new : string -> option URL.

Lemma validateUrl_parsed (input : string) (u : URL) :
  input <> "" -> URL_new (withScheme input) = Some u ->
  validateUrl URL_new input = true.
Proof.
  intros N P. unfold validateUrl. rewrite P.
  destruct input; [contradiction | reflexivity].
Qed.

Lemma validateUrl_unparsed (input : string) :
  URL_new (withScheme input) = None ->
  validateUrl URL_new input = false.
Proof.
  intros P. unfold validateUrl. rewrite P.
  destruct input; reflexivity.
Qed.


Lemma analyzeUrl_valid (input : string) (u : URL) (st : Dialog)
      (g : RandomSource) :
  input <> "" -> URL_new (withScheme input) = Some u ->
  checkResult (fst (analyzeUrl URL_new input st g))
  = Some (result_for input u g).
Proof.
  intros N P. unfold analyzeUrl, result_for.
  rewrite (validateUrl_parsed _ _ N P), P. simpl.
  unfold bind. destruct (evaluate (withScheme input) u g) as [v g'].
  reflexivity.
Qed.

Lemma analyzeUrl_invalid (input : string) (st : Dialog)
      (g : RandomSource) :
  validateUrl URL_new input = false ->
  analyzeUrl URL_new input st g
  = (mkDialog (isChecking st) (checkResult st) (Some invalid_message), g).
Proof. intros V. unfold analyzeUrl. rewrite V. reflexivity. Qed.

(** A result that appears in a dialog that had none comes from this
    evaluation. *)
Lemma analyzeUrl_fresh (input : string) (st : Dialog) (g : RandomSource)
      (r : UrlCheckResult) :
  checkResult st = None ->
  checkResult (fst (analyzeUrl URL_new input st g)) = Some r ->
  exists u, input <> "" /\ URL_new (withScheme input) = Some u
            /\ r = result_for input u g.
Proof.
  intros E R.
  destruct (validateUrl URL_new input) eqn:V.
  - destruct (URL_new (withScheme input)) as [u|] eqn:P.
    + assert (N : input <> "").
      { intros ->. discriminate V. }
      rewrite (analyzeUrl_valid _ _ _ _ N P) in R.
      injection R as <-. now exists u.
    + rewrite (validateUrl_unparsed _ P) in V. discriminate.
  - rewrite (analyzeUrl_invalid _ _ _ V) in R. simpl in R. congruence.
Qed.

Lemma result_for_fields (input : string) (u : URL) (g : RandomSource) :
  let v := fst (evaluate (withScheme input) u g) in
  let r := result_for input u g in
  status r = v_status v /\ confidenceScore r = v_confidence v
  /\ maliciousPatterns (details r) = v_patterns v.
Proof.
  unfold result_for.
  destruct (evaluate (withScheme input) u g) as [v g'].
  repeat split.
Qed.

End Checker.

End UrlFacts.

(* ===================================================================== *)
(** ** Facts about the fall-back policy                                  *)
(* ===================================================================== *)

Module FormFacts.
Import Email.

Section Timers.
Variable Json : Type.

(** When the timers have fired, the card shows the local result for
    the data of the timer that was set last. *)
Lemma timers_fire_last (earlier : list FormValues) (data : FormValues) :
  forall st : FormState Json,
    pending st = (earlier ++ [data])%list ->
    let st' := timers_fire (List.length (earlier ++ [data])) st in
    analysisResults st' = Some (Local (generateMockAnalysisResult data))
    /\ isAnalyzing st' = false
    /\ pending st' = []
    /\ analysisError st' = analysisError st.
Proof.
  induction earlier as [|d earlier IH]; intros st P; simpl.
  - unfold timer_fires. rewrite P. simpl. repeat split.
  - assert (E : timer_fires st
                = handleApiFailure d
                    (mkState (isAnalyzing st) (analysisResults st)
                       (analysisError st) (earlier ++ [data])%list)).
    { unfold timer_fires. rewrite P. reflexivity. }
    rewrite E.
    destruct (IH (handleApiFailure d
                    (mkState (isAnalyzing st) (analysisResults st)
                       (analysisError st) (earlier ++ [data])%list))
                 eq_refl) as (A & B & C & D).
    repeat split; assumption.
Qed.

Variable error_property : Json -> option string.

(** Every failure ends in [catch]. *)
Lemma failed_request (o : FetchOutcome Json) :
  failed o -> exists message, request error_property o = inr message.
Proof.
  intros [m | status text body | status text m]; simpl; eauto.
Qed.

End Timers.

End FormFacts.

(* ===================================================================== *)
(** ** Facts about the scenarios                                         *)
(* ===================================================================== *)

Module ScenarioFacts.
Import Scenario.

Lemma mentions_includes (word : string) (l : list string) :
  mentions word l <->
  existsb (fun i => includes (toLowerCase i) word) l = true.
Proof.
  unfold mentions. rewrite existsb_exists.
  split; intros (i & Hi & H); exists i; (split; [exact Hi |]);
    now apply includes_contains.
Qed.

Lemma paypa1_mail_result :
  Email.generateMockAnalysisResult paypa1_mail =
  Email.mkResult Email.phishing 92
    [Email.urgent_indicator; Email.sensitive_indicator]
    (Email.analysis_of Email.phishing)
    [Email.mkLink "https://paypa1.com/verify" Email.keyword_reason;
     Email.mkLink "https://paypa1.com/verify" Email.typosquatting_reason]
    (Email.action_of Email.phishing).
Proof. vm_compute. reflexivity. Qed.

Lemma paypa1_mail_no_spoofing :
  ~ mentions "spoof" (Email.indicators
                        (Email.generateMockAnalysisResult paypa1_mail)).
Proof.
  rewrite mentions_includes, paypa1_mail_result. vm_compute. discriminate.
Qed.

(** What the model of the URL constructor says of the example inputs. *)
Lemma parsed_examples :
  WHATWG.URL_new (UrlChecker.withScheme "google.com")
    = Some (UrlChecker.mkURL "google.com")
  /\ WHATWG.URL_new (UrlChecker.withScheme "g00gle.com")
    = Some (UrlChecker.mkURL "g00gle.com")
  /\ WHATWG.URL_new (UrlChecker.withScheme "my-site.com")
    = Some (UrlChecker.mkURL "my-site.com")
  /\ WHATWG.URL_new (UrlChecker.withScheme "secure-verify.com")
    = Some (UrlChecker.mkURL "secure-verify.com")
  /\ WHATWG.URL_new (UrlChecker.withScheme "example.com/verify")
    = Some (UrlChecker.mkURL "example.com")
  /\ WHATWG.URL_new (UrlChecker.withScheme "mail.google.com")
    = Some (UrlChecker.mkURL "mail.google.com")
  /\ WHATWG.URL_new (UrlChecker.withScheme "not a url") = None.
Proof. repeat split; vm_compute; reflexivity. Qed.

Lemma constant_source_ok (r : Q) :
  (0 <= r)%Q -> (r < 1)%Q -> random_ok (constant_source r).
Proof. intros H0 H1 n; simpl; split; assumption. Qed.

End ScenarioFacts.

(* ===================================================================== *)
(** ** The properties of the specification                               *)
(* ===================================================================== *)

Import UrlFacts Scenario ScenarioFacts.

(** C1.  Whenever the host name of the input, lower-cased as the checker
    does, is a domain of the allow-list or a subdomain of one, the checker
    returns [safe], with no pattern recorded and a confidence between 95 and
    99; this holds for any URL constructor.  With the modelled constructor,
    the input [google.com] is classified [safe] with a confidence of at
    least 90. *)
Theorem allow_list_is_safe :
  (forall (URL_new : string -> option UrlChecker.URL) (input : string)
          (u : UrlChecker.URL) (st : UrlChecker.Dialog) (g : RandomSource),
      input <> "" ->
      URL_new (UrlChecker.withScheme input) = Some u ->
      UrlChecker.on_allow_list (toLowerCase (UrlChecker.hostname u)) ->
      random_ok g ->
      exists r,
        UrlChecker.checkResult (fst (UrlChecker.analyzeUrl URL_new input st g))
        = Some r
        /\ UrlChecker.status r = UrlChecker.safe
        /\ 95 <= UrlChecker.confidenceScore r <= 99
        /\ UrlChecker.maliciousPatterns (UrlChecker.details r) = [])
  /\ (forall (st : UrlChecker.Dialog) (g : RandomSource),
         random_ok g ->
         exists r,
           UrlChecker.checkResult
             (fst (UrlChecker.analyzeUrl WHATWG.URL_new "google.com" st g))
           = Some r
           /\ UrlChecker.status r = UrlChecker.safe
           /\ 90 <= UrlChecker.confidenceScore r).
Proof.
  assert (General :
    forall URL_new input u st g,
      input <> "" ->
      URL_new (UrlChecker.withScheme input) = Some u ->
      UrlChecker.on_allow_list (toLowerCase (UrlChecker.hostname u)) ->
      random_ok g ->
      exists r,
        UrlChecker.checkResult (fst (UrlChecker.analyzeUrl URL_new input st g))
        = Some r
        /\ UrlChecker.status r = UrlChecker.safe
        /\ 95 <= UrlChecker.confidenceScore r <= 99
        /\ UrlChecker.maliciousPatterns (UrlChecker.details r) = []).
  { intros URL_new input u st g N P L G.
    exists (UrlChecker.result_for input u g).
    split; [now apply analyzeUrl_valid |].
    destruct (result_for_fields input u g) as (-> & -> & ->).
    apply isLegitDomain_spec in L.
    destruct (rules_allow_list (UrlChecker.withScheme input) _ g L)
      as (S & Pn & C).
    unfold UrlChecker.evaluate. rewrite S, Pn, C.
    destruct (taken_draw_ok g G) as [H0 H1].
    pose proof (floor_times_range _ 5 H0 H1 eq_refl).
    repeat split; lia. }
  split; [exact General |].
  intros st g G.
  destruct (General WHATWG.URL_new "google.com"
              (UrlChecker.mkURL "google.com") st g)
    as (r & R & S & C & _); try assumption.
  - discriminate.
  - apply parsed_examples.
  - exists "google.com". split; [now left | now left].
  - exists r. repeat split; try assumption. lia.
Qed.

(** C1, at [mail.google.com] with the modelled constructor and a source that
    returns 0.3. *)
Lemma allow_list_is_safe_witness :
  exists r,
    UrlChecker.checkResult
      (fst (UrlChecker.analyzeUrl WHATWG.URL_new "mail.google.com"
              UrlChecker.closed (constant_source (3 # 10))))
    = Some r
    /\ UrlChecker.status r = UrlChecker.safe
    /\ 95 <= UrlChecker.confidenceScore r <= 99
    /\ UrlChecker.maliciousPatterns (UrlChecker.details r) = [].
Proof.
  apply (proj1 allow_list_is_safe WHATWG.URL_new "mail.google.com"
               (UrlChecker.mkURL "mail.google.com")).
  - discriminate.
  - vm_compute. reflexivity.
  - exists "google.com". split; [simpl; tauto |].
    right. exists "mail". reflexivity.
  - intros n. simpl. split; [discriminate | reflexivity].
Defined.

(** C2.  Whenever the lower-cased host name contains a word of the
    brand-impersonation pattern set and fails the allow-list test (exact
    match or subdomain), the checker returns [malicious]: with the pattern
    of a known phishing domain and confidence 95 when that earlier rule
    fires too, with the typosquatting pattern and confidence 92 otherwise.
    With the modelled constructor, [g00gle.com] is [malicious] and its one
    pattern mentions typosquatting. *)
Theorem impersonation_is_malicious :
  (forall (URL_new : string -> option UrlChecker.URL) (input : string)
          (u : UrlChecker.URL) (st : UrlChecker.Dialog) (g : RandomSource),
      input <> "" ->
      URL_new (UrlChecker.withScheme input) = Some u ->
      UrlChecker.impersonates (toLowerCase (UrlChecker.hostname u)) ->
      ~ UrlChecker.on_allow_list (toLowerCase (UrlChecker.hostname u)) ->
      exists r,
        UrlChecker.checkResult (fst (UrlChecker.analyzeUrl URL_new input st g))
        = Some r
        /\ UrlChecker.status r = UrlChecker.malicious
        /\ (UrlChecker.maliciousPatterns (UrlChecker.details r)
              = [UrlChecker.phishing_pattern]
            /\ UrlChecker.confidenceScore r = 95
            \/ UrlChecker.maliciousPatterns (UrlChecker.details r)
                 = [UrlChecker.typosquatting_pattern]
               /\ UrlChecker.confidenceScore r = 92))
  /\ (forall (st : UrlChecker.Dialog) (g : RandomSource),
         exists r,
           UrlChecker.checkResult
             (fst (UrlChecker.analyzeUrl WHATWG.URL_new "g00gle.com" st g))
           = Some r
           /\ UrlChecker.status r = UrlChecker.malicious
           /\ UrlChecker.maliciousPatterns (UrlChecker.details r)
              = [UrlChecker.typosquatting_pattern]
           /\ mentions "typosquatting"
                (UrlChecker.maliciousPatterns (UrlChecker.details r))).
Proof.
  split.
  - intros URL_new input u st g N P T L.
    exists (UrlChecker.result_for input u g).
    split; [now apply analyzeUrl_valid |].
    destruct (result_for_fields input u g) as (-> & -> & ->).
    apply hasTyposquatting_spec in T.
    assert (L' : UrlChecker.isLegitDomain
                   (toLowerCase (UrlChecker.hostname u)) = false).
    { destruct (UrlChecker.isLegitDomain _) eqn:E; [| reflexivity].
      exfalso. apply L. now apply isLegitDomain_spec. }
    exact (rules_impersonation (UrlChecker.withScheme input) _ g L' T).
  - intros st g.
    exists (UrlChecker.result_for "g00gle.com" (UrlChecker.mkURL "g00gle.com") g).
    split.
    { apply analyzeUrl_valid; [discriminate | apply parsed_examples]. }
    destruct (result_for_fields "g00gle.com"
                (UrlChecker.mkURL "g00gle.com") g) as (-> & _ & ->).
    repeat split.
    apply mentions_includes. reflexivity.
Qed.

(** C2, at [faceb00k-security.net] with the modelled constructor. *)
Lemma impersonation_is_malicious_witness :
  exists r,
    UrlChecker.checkResult
      (fst (UrlChecker.analyzeUrl WHATWG.URL_new "faceb00k-security.net"
              UrlChecker.closed (constant_source 0)))
    = Some r
    /\ UrlChecker.status r = UrlChecker.malicious
    /\ (UrlChecker.maliciousPatterns (UrlChecker.details r)
          = [UrlChecker.phishing_pattern]
        /\ UrlChecker.confidenceScore r = 95
        \/ UrlChecker.maliciousPatterns (UrlChecker.details r)
             = [UrlChecker.typosquatting_pattern]
           /\ UrlChecker.confidenceScore r = 92).
Proof.
  apply (proj1 impersonation_is_malicious WHATWG.URL_new
               "faceb00k-security.net"
               (UrlChecker.mkURL "faceb00k-security.net")).
  - discriminate.
  - vm_compute. reflexivity.
  - apply hasTyposquatting_spec. vm_compute. reflexivity.
  - intros L. apply isLegitDomain_spec in L. vm_compute in L. discriminate.
Defined.

(** C4.  When the input, with [https://] put in front where it has no
    scheme, is not accepted by the URL constructor, [analyzeUrl] sets the
    form error "Please enter a valid URL", leaves the result of the dialog
    as it was and draws no random number; from a dialog without a result no
    result, and so no [safe] verdict, comes out.  The modelled constructor
    rejects [not a url]. *)
Theorem unparseable_input_is_rejected :
  (forall (URL_new : string -> option UrlChecker.URL) (input : string)
          (st : UrlChecker.Dialog) (g : RandomSource),
      URL_new (UrlChecker.withScheme input) = None ->
      UrlChecker.analyzeUrl URL_new input st g
      = (UrlChecker.mkDialog (UrlChecker.isChecking st)
           (UrlChecker.checkResult st) (Some UrlChecker.invalid_message), g)
      /\ forall r,
          UrlChecker.checkResult
            (fst (UrlChecker.analyzeUrl URL_new input UrlChecker.closed g))
          <> Some r)
  /\ (forall g : RandomSource,
         UrlChecker.analyzeUrl WHATWG.URL_new "not a url" UrlChecker.closed g
         = (UrlChecker.mkDialog false None
              (Some UrlChecker.invalid_message), g)).
Proof.
  assert (General :
    forall URL_new input st g,
      URL_new (UrlChecker.withScheme input) = None ->
      UrlChecker.analyzeUrl URL_new input st g
      = (UrlChecker.mkDialog (UrlChecker.isChecking st)
           (UrlChecker.checkResult st) (Some UrlChecker.invalid_message), g)).
  { intros URL_new input st g P.
    apply analyzeUrl_invalid, validateUrl_unparsed, P. }
  split.
  - intros URL_new input st g P. split; [now apply General |].
    intros r. rewrite (General _ _ _ _ P). discriminate.
  - intros g. apply (General WHATWG.URL_new "not a url").
    apply parsed_examples.
Qed.

(** C4, at [not a url] with the modelled constructor. *)
Lemma unparseable_input_is_rejected_witness :
  UrlChecker.analyzeUrl WHATWG.URL_new "not a url" UrlChecker.closed
    (constant_source 0)
  = (UrlChecker.mkDialog false None (Some UrlChecker.invalid_message),
     constant_source 0).
Proof.
  apply (proj1 (proj1 unparseable_input_is_rejected WHATWG.URL_new
                      "not a url" UrlChecker.closed (constant_source 0)
                      ltac:(vm_compute; reflexivity))).
Defined.

(** C3.  In one evaluation the verdict never moves down.  For the e-mail
    heuristic the values assigned to [riskLevel], in order, are
    non-decreasing in the order safe, suspicious, phishing, and the last one
    is the level returned; for the URL checker the same holds of the values
    assigned to [status], in the order safe, suspicious, malicious. *)
Theorem verdict_only_moves_up :
  (forall data : Email.FormValues,
      never_downgrades Email.tier (Email.assigned (Email.scan data))
      /\ last (Email.assigned (Email.scan data)) Email.safe
         = Email.riskLevel (Email.generateMockAnalysisResult data))
  /\ (forall (input : string) (u : UrlChecker.URL) (g : RandomSource),
         let v := fst (UrlChecker.evaluate (UrlChecker.withScheme input) u g) in
         never_downgrades UrlChecker.tier (UrlChecker.assigned v)
         /\ last (UrlChecker.assigned v) UrlChecker.safe
            = UrlChecker.status (UrlChecker.result_for input u g)).
Proof.
  split.
  - intros data. exact (EmailFacts.scan_sound data).
  - intros input u g v.
    destruct (result_for_fields input u g) as (-> & _ & _).
    apply rules_sound.
Qed.

(** C5.  Whatever way the request to the analysis service fails (the
    request is rejected, the response is not a success, or the body of a
    successful response cannot be parsed), [analyzeEmail] records the error
    message and sets a timer with the data of the form; when the pending
    timers have fired, the form shows the result of the local heuristic on
    that data and is no longer analysing. *)
Theorem fallback_on_failure :
  forall (Json : Type) (error_property : Json -> option string)
         (data : Email.FormValues) (o : Email.FetchOutcome Json)
         (st : Email.FormState Json),
    Email.failed o ->
    let st1 := Email.analyzeEmail error_property data o st in
    let st2 := Email.after_delay st1 in
    (exists message, Email.analysisError st1 = Some message)
    /\ Email.pending st1 = (Email.pending st ++ [data])%list
    /\ Email.analysisResults st2
       = Some (Email.Local (Email.generateMockAnalysisResult data))
    /\ Email.isAnalyzing st2 = false
    /\ Email.pending st2 = [].
Proof.
  intros Json error_property data o st F st1 st2.
  destruct (FormFacts.failed_request Json error_property o F) as [m E].
  assert (S1 : st1 = Email.mkState false None (Some m)
                       (Email.pending st ++ [data])%list).
  { unfold st1, Email.analyzeEmail. rewrite E. reflexivity. }
  destruct (FormFacts.timers_fire_last Json (Email.pending st) data st1)
    as (R & A & P & _).
  { rewrite S1. reflexivity. }
  assert (S2 : st2 = Email.timers_fire
                       (List.length (Email.pending st ++ [data])%list) st1).
  { unfold st2, Email.after_delay. rewrite S1 at 1. reflexivity. }
  rewrite S2. repeat split; try assumption.
  - exists m. rewrite S1. reflexivity.
  - rewrite S1. reflexivity.
Qed.

(** C5, for a service that answers 503 with a body that is not JSON, on the
    mail of the scenario, in a form that has just been opened. *)
Lemma fallback_on_failure_witness :
  let st1 :=
    Email.analyzeEmail (fun _ : string => None) paypa1_mail
      (Email.Responded false 503 "Service Unavailable"
         (Email.Unparseable "Unexpected token"))
      Email.opened in
  (exists message, Email.analysisError st1 = Some message)
  /\ Email.pending st1 = [paypa1_mail]
  /\ Email.analysisResults (Email.after_delay st1)
     = Some (Email.Local (Email.generateMockAnalysisResult paypa1_mail))
  /\ Email.isAnalyzing (Email.after_delay st1) = false
  /\ Email.pending (Email.after_delay st1) = [].
Proof.
  apply (fallback_on_failure string (fun _ => None) paypa1_mail
           (Email.Responded false 503 "Service Unavailable"
              (Email.Unparseable "Unexpected token"))
           Email.opened).
  apply Email.failed_status.
Defined.

(** C6.  A [phishing] result of the e-mail heuristic has at least one
    indicator; when the detection rules end at [phishing] with fewer than
    two indicators, the result carries those indicators followed by
    "Multiple suspicious elements detected".  A [malicious] result of the
    URL checker has at least one malicious pattern. *)
Theorem high_severity_is_explained :
  (forall data : Email.FormValues,
      Email.riskLevel (Email.generateMockAnalysisResult data) = Email.phishing ->
      Email.indicators (Email.generateMockAnalysisResult data) <> [])
  /\ (forall data : Email.FormValues,
         Email.s_riskLevel (Email.detect data) = Email.phishing ->
         (List.length (Email.s_indicators (Email.detect data)) < 2)%nat ->
         Email.indicators (Email.generateMockAnalysisResult data)
         = (Email.s_indicators (Email.detect data)
              ++ [Email.generic_indicator])%list)
  /\ (forall (URL_new : string -> option UrlChecker.URL) (input : string)
             (st : UrlChecker.Dialog) (g : RandomSource)
             (r : UrlChecker.UrlCheckResult),
         UrlChecker.checkResult st = None ->
         UrlChecker.checkResult (fst (UrlChecker.analyzeUrl URL_new input st g))
         = Some r ->
         UrlChecker.status r = UrlChecker.malicious ->
         UrlChecker.maliciousPatterns (UrlChecker.details r) <> []).
Proof.
  split; [| split].
  - intros data H. simpl in *.
    apply EmailFacts.rule_generic_indicators.
    unfold Email.scan in H.
    now rewrite (proj2 (EmailFacts.rule_generic_log _)) in H.
  - intros data H L. simpl.
    now apply EmailFacts.rule_generic_appends.
  - intros URL_new input st g r E R M.
    destruct (analyzeUrl_fresh URL_new input st g r E R) as (u & _ & _ & ->).
    destruct (result_for_fields input u g) as (S & _ & P).
    rewrite P. rewrite S in M.
    exact (rules_malicious_explained _ _ _ M).
Qed.

(** C6, at the mail of the scenario, at a mail with one suspicious link and
    no keyword, and at [g00gle.com]. *)
Lemma high_severity_is_explained_witness :
  Email.indicators (Email.generateMockAnalysisResult paypa1_mail) <> []
  /\ Email.indicators (Email.generateMockAnalysisResult bare_link)
     = [Email.generic_indicator]
  /\ exists r,
      UrlChecker.checkResult
        (fst (UrlChecker.analyzeUrl WHATWG.URL_new "g00gle.com"
                UrlChecker.closed (constant_source 0)))
      = Some r
      /\ UrlChecker.maliciousPatterns (UrlChecker.details r) <> [].
Proof.
  destruct high_severity_is_explained as (A & B & C).
  split; [| split].
  - apply A. vm_compute. reflexivity.
  - apply (B bare_link).
    + vm_compute. reflexivity.
    + vm_compute. lia.
  - assert (R : UrlChecker.checkResult
                  (fst (UrlChecker.analyzeUrl WHATWG.URL_new "g00gle.com"
                          UrlChecker.closed (constant_source 0)))
                = Some (UrlChecker.result_for "g00gle.com"
                          (UrlChecker.mkURL "g00gle.com") (constant_source 0))).
    { vm_compute. reflexivity. }
    eexists. split; [exact R |].
    apply (C WHATWG.URL_new "g00gle.com" UrlChecker.closed
             (constant_source 0)).
    + reflexivity.
    + exact R.
    + vm_compute. reflexivity.
Defined.


(** C7 as stated fails for the URL checker: [my-site.com] is [suspicious]
    with confidence 68, below the band 70-80; and the confidence is not a
    function of the verdict, [secure-verify.com] and [g00gle.com] being both
    [malicious], with 95 and 92. *)
Lemma confidence_band_counterexample :
  checked "my-site.com" (constant_source 0) = Some (UrlChecker.suspicious, 68)
  /\ ~ stated_band (UrlChecker.tier UrlChecker.suspicious) 68
  /\ checked "secure-verify.com" (constant_source 0)
     = Some (UrlChecker.malicious, 95)
  /\ checked "g00gle.com" (constant_source 0)
     = Some (UrlChecker.malicious, 92).
Proof.
  repeat split; try (vm_compute; reflexivity).
  simpl. lia.
Qed.

(** C7, amended.  The e-mail heuristic takes the confidence from the final
    level alone (92, 75, 88), inside the stated bands.  The URL checker sets
    the confidence in the rule that fires: 95 or 92 with [malicious], 75 or
    68 with [suspicious], 90 or a value from 95 to 99 with [safe]; so it
    stays in 90-95, 68-80 and 85-99. *)
Theorem confidence_per_verdict :
  (forall data : Email.FormValues,
      let r := Email.generateMockAnalysisResult data in
      Email.confidence r = Email.confidence_of (Email.riskLevel r)
      /\ stated_band (Email.tier (Email.riskLevel r)) (Email.confidence r))
  /\ (forall (URL_new : string -> option UrlChecker.URL) (input : string)
             (st : UrlChecker.Dialog) (g : RandomSource)
             (r : UrlChecker.UrlCheckResult),
         UrlChecker.checkResult st = None ->
         random_ok g ->
         UrlChecker.checkResult (fst (UrlChecker.analyzeUrl URL_new input st g))
         = Some r ->
         UrlChecker.confidence_by_rule (UrlChecker.status r) (UrlChecker.confidenceScore r)
         /\ kept_band (UrlChecker.status r) (UrlChecker.confidenceScore r)).
Proof.
  split.
  - intros data r. split; [reflexivity |].
    unfold r; simpl.
    destruct (Email.s_riskLevel (Email.scan data)); simpl; lia.
  - intros URL_new input st g r E G R.
    destruct (analyzeUrl_fresh URL_new input st g r E R) as (u & _ & _ & ->).
    destruct (result_for_fields input u g) as (-> & -> & _).
    pose proof (rules_confidence (UrlChecker.withScheme input)
                  (toLowerCase (UrlChecker.hostname u)) g G) as C.
    unfold UrlChecker.evaluate. simpl in C.
    split; [exact C |].
    destruct (UrlChecker.v_status _); simpl in *; lia.
Qed.

(** C7 amended, at [my-site.com]. *)
Lemma confidence_per_verdict_witness :
  exists r,
    UrlChecker.checkResult
      (fst (UrlChecker.analyzeUrl WHATWG.URL_new "my-site.com"
              UrlChecker.closed (constant_source 0)))
    = Some r
    /\ UrlChecker.confidence_by_rule (UrlChecker.status r)
         (UrlChecker.confidenceScore r)
    /\ kept_band (UrlChecker.status r) (UrlChecker.confidenceScore r).
Proof.
  assert (R : UrlChecker.checkResult
                (fst (UrlChecker.analyzeUrl WHATWG.URL_new "my-site.com"
                        UrlChecker.closed (constant_source 0)))
              = Some (UrlChecker.result_for "my-site.com"
                        (UrlChecker.mkURL "my-site.com") (constant_source 0))).
  { vm_compute. reflexivity. }
  eexists. split; [exact R |].
  apply (proj2 confidence_per_verdict WHATWG.URL_new "my-site.com"
               UrlChecker.closed (constant_source 0)).
  - reflexivity.
  - intros n. simpl. split; [discriminate | reflexivity].
  - exact R.
Defined.

(** C8 as stated fails: on the mail of the scenario no indicator mentions
    spoofing, the sender [support@paypa1-alerts.com] containing none of the
    names paypal, amazon, apple that the sender rule looks for. *)
Lemma paypa1_mail_counterexample :
  let r := Email.generateMockAnalysisResult paypa1_mail in
  ~ (Email.riskLevel r = Email.phishing
     /\ Email.suspiciousLinks r <> []
     /\ mentions "urgent" (Email.indicators r)
     /\ mentions "spoof" (Email.indicators r)).
Proof.
  intros r (_ & _ & _ & S). exact (paypa1_mail_no_spoofing S).
Qed.

(** C8, amended.  On the mail of the scenario the heuristic returns
    [phishing] with two suspicious-link entries for the one link (keyword
    and typosquatting), and exactly two indicators: the one on urgent
    language and the one on sensitive information; none mentions
    spoofing. *)
Theorem paypa1_mail_is_phishing :
  let r := Email.generateMockAnalysisResult paypa1_mail in
  Email.riskLevel r = Email.phishing
  /\ Email.suspiciousLinks r
     = [Email.mkLink "https://paypa1.com/verify" Email.keyword_reason;
        Email.mkLink "https://paypa1.com/verify" Email.typosquatting_reason]
  /\ Email.suspiciousLinks r <> []
  /\ Email.indicators r = [Email.urgent_indicator; Email.sensitive_indicator]
  /\ mentions "urgent" (Email.indicators r)
  /\ mentions "sensitive" (Email.indicators r)
  /\ ~ mentions "spoof" (Email.indicators r).
Proof.
  intros r. unfold r. split; [| split; [| split; [| split; [| split; [| split]]]]].
  - now rewrite paypa1_mail_result.
  - now rewrite paypa1_mail_result.
  - rewrite paypa1_mail_result. discriminate.
  - now rewrite paypa1_mail_result.
  - apply mentions_includes. rewrite paypa1_mail_result. reflexivity.
  - apply mentions_includes. rewrite paypa1_mail_result. reflexivity.
  - exact paypa1_mail_no_spoofing.
Qed.

(** C9 as stated fails: a mail whose subject contains the sensitive-data
    keyword [password], with nothing else to match, is [safe]. *)
Lemma subject_keyword_counterexample :
  (exists w, In w Email.sensitiveWords
             /\ contains (toLowerCase (Email.subject password_subject)) w)
  /\ Email.riskLevel (Email.generateMockAnalysisResult password_subject)
     = Email.safe.
Proof.
  split; [| vm_compute; reflexivity].
  exists "password". split; [simpl; tauto |].
  exists "your ", "". reflexivity.
Qed.

(** C9, amended.  Urgency keywords are looked for in the content and in the
    subject, sensitive-data keywords in the content only, all after
    lower-casing: a mail with an urgency keyword in its subject or content,
    or a sensitive-data keyword in its content, is not [safe]. *)
Theorem keyword_escalates :
  forall data : Email.FormValues,
    (exists w, In w Email.urgentWords
               /\ (contains (toLowerCase (Email.content data)) w
                   \/ contains (toLowerCase (Email.subject data)) w))
    \/ (exists w, In w Email.sensitiveWords
                  /\ contains (toLowerCase (Email.content data)) w) ->
    Email.riskLevel (Email.generateMockAnalysisResult data) <> Email.safe.
Proof.
  intros data H. simpl. unfold Email.scan.
  rewrite (proj2 (EmailFacts.rule_generic_log _)).
  unfold Email.detect.
  apply EmailFacts.fold_rule_url_raised, EmailFacts.rule_sender_raised.
  destruct H as [U | S].
  - apply EmailFacts.rule_sensitive_raised.
    now apply EmailFacts.rule_urgent_fires.
  - now apply EmailFacts.rule_sensitive_fires.
Qed.

(** C9 amended, at a mail with [URGENT] in the subject only. *)
Lemma keyword_escalates_witness :
  Email.riskLevel
    (Email.generateMockAnalysisResult
       (Email.mkForm "friend@example.org" "URGENT" "See you tomorrow"))
  <> Email.safe.
Proof.
  apply keyword_escalates. left.
  exists "urgent". split; [simpl; tauto |].
  right. exists "", "". reflexivity.
Defined.

(** C10.  The e-mail heuristic does not depend on the random source: it
    returns the same result under any two sources and takes no number from
    them.  The URL checker does: on [example.com/verify] the verdict is
    [suspicious] when the number drawn is above one half and [safe] when it
    is not, and on [google.com] the confidence of the [safe] verdict is 95
    or 99 according to the number drawn. *)
Theorem email_is_deterministic :
  (forall (data : Email.FormValues) (g1 g2 : RandomSource),
      fst (Email.classify data g1) = fst (Email.classify data g2))
  /\ (forall (data : Email.FormValues) (g : RandomSource),
         snd (Email.classify data g) = g)
  /\ (random_ok (constant_source (1 # 10))
      /\ random_ok (constant_source (9 # 10))
      /\ checked "example.com/verify" (constant_source (1 # 10))
         = Some (UrlChecker.safe, 90)
      /\ checked "example.com/verify" (constant_source (9 # 10))
         = Some (UrlChecker.suspicious, 75))
  /\ (checked "google.com" (constant_source (1 # 10))
      = Some (UrlChecker.safe, 95)
      /\ checked "google.com" (constant_source (9 # 10))
         = Some (UrlChecker.safe, 99)).
Proof.
  split; [| split; [| split]].
  - reflexivity.
  - reflexivity.
  - split; [| split; [| split]].
    + apply constant_source_ok; [discriminate | reflexivity].
    + apply constant_source_ok; [discriminate | reflexivity].
    + vm_compute; reflexivity.
    + vm_compute; reflexivity.
  - split; vm_compute; reflexivity.
Qed.

(* ===================================================================== *)
(** ** Further facts about strings and link extraction                   *)
(* ===================================================================== *)

Module TextFacts.

Lemma lower_char_idempotent (c : ascii) :
  lower_char (lower_char c) = lower_char c.
Proof.
  destruct c as [b0 b1 b2 b3 b4 b5 b6 b7].
  destruct b0, b1, b2, b3, b4, b5, b6, b7; reflexivity.
Qed.

Lemma toLowerCase_idempotent (s : string) :
  toLowerCase (toLowerCase s) = toLowerCase s.
Proof.
  induction s as [|c s IH]; simpl; [reflexivity |].
  now rewrite lower_char_idempotent, IH.
Qed.

Lemma toLowerCase_append (a b : string) :
  toLowerCase (a ++ b) = toLowerCase a ++ toLowerCase b.
Proof. induction a as [|c a IH]; simpl; [reflexivity | now rewrite IH]. Qed.

Lemma lower_case_append (a b : string) :
  AddEmailForm.lower_case (a ++ b) <->
  AddEmailForm.lower_case a /\ AddEmailForm.lower_case b.
Proof.
  unfold AddEmailForm.lower_case.
  induction a as [|c a IH]; simpl.
  - tauto.
  - split.
    + intros E. injection E as Ec Ea. apply IH in Ea as [Ea Eb].
      split; [now rewrite Ec, Ea | exact Eb].
    + intros [E Eb]. injection E as Ec Ea.
      rewrite Ec. f_equal. apply IH. now split.
Qed.

Lemma lower_case_contains (s m : string) :
  AddEmailForm.lower_case s -> contains s m -> AddEmailForm.lower_case m.
Proof.
  intros L (pre & post & ->).
  apply lower_case_append in L as [_ L].
  now apply lower_case_append in L as [L _].
Qed.

(** The run is a prefix of the string. *)
Lemma non_space_run_prefix (s : string) :
  exists rest, s = non_space_run s ++ rest.
Proof.
  induction s as [|c s [rest IH]]; simpl.
  - now exists "".
  - destruct (is_space c).
    + now exists (String c s).
    + exists rest. simpl. now rewrite <- IH.
Qed.

Lemma non_space_run_clean (s : string) :
  WHATWG.all_chars (fun c => negb (is_space c)) (non_space_run s) = true.
Proof.
  induction s as [|c s IH]; simpl; [reflexivity |].
  destruct (is_space c) eqn:E; simpl; [reflexivity |].
  now rewrite E, IH.
Qed.

Lemma drop_append (p s : string) : drop (String.length p) (p ++ s) = s.
Proof. induction p as [|c p IH]; simpl; [now destruct s | exact IH]. Qed.

(** What one successful match attempt returns. *)
Lemma urlRegex_at_match (s m : string) :
  urlRegex_at s = Some m ->
  (startsWith m "http://" = true \/ startsWith m "https://" = true)
  /\ WHATWG.all_chars (fun c => negb (is_space c)) m = true
  /\ (8 <= String.length m)%nat
  /\ exists rest, s = m ++ rest.
Proof.
  unfold urlRegex_at.
  destruct (startsWith s "https://") eqn:Hs.
  - destruct (startsWith_split _ _ Hs) as [tail ->].
    change 8%nat with (String.length "https://"). rewrite drop_append.
    pose proof (non_space_run_clean tail) as C.
    destruct (non_space_run_prefix tail) as [rest P].
    destruct (non_space_run tail) as [|c run] eqn:R; [discriminate |].
    intros E; injection E as <-.
    repeat split.
    + now right.
    + exact C.
    + simpl. lia.
    + exists rest. simpl. simpl in P. now rewrite P at 1.
  - destruct (startsWith s "http://") eqn:Hp; [| discriminate].
    destruct (startsWith_split _ _ Hp) as [tail ->].
    change 7%nat with (String.length "http://"). rewrite drop_append.
    pose proof (non_space_run_clean tail) as C.
    destruct (non_space_run_prefix tail) as [rest P].
    destruct (non_space_run tail) as [|c run] eqn:R; [discriminate |].
    intros E; injection E as <-.
    repeat split.
    + now left.
    + exact C.
    + simpl. lia.
    + exists rest. simpl. simpl in P. now rewrite P at 1.
Qed.

(** Every element of the global match comes from a match attempt at some
    position. *)
Lemma match_from_attempt (s m : string) (skip : nat) :
  In m (match_from skip s) ->
  exists pre suffix, s = pre ++ suffix /\ urlRegex_at suffix = Some m.
Proof.
  revert skip; induction s as [|c s IH]; intros skip H; simpl in H.
  - contradiction.
  - destruct skip as [|k].
    + destruct (urlRegex_at (String c s)) as [m'|] eqn:E.
      * destruct H as [<- | H].
        -- now exists "", (String c s).
        -- destruct (IH _ H) as (pre & suf & -> & A).
           now exists (String c pre), suf.
      * destruct (IH _ H) as (pre & suf & -> & A).
        now exists (String c pre), suf.
    + destruct (IH _ H) as (pre & suf & -> & A).
      now exists (String c pre), suf.
Qed.

Lemma match_urlRegex_shape (s m : string) :
  In m (match_urlRegex s) ->
  (startsWith m "http://" = true \/ startsWith m "https://" = true)
  /\ WHATWG.all_chars (fun c => negb (is_space c)) m = true
  /\ (8 <= String.length m)%nat
  /\ contains s m.
Proof.
  intros H. apply match_from_attempt in H as (pre & suf & -> & A).
  apply urlRegex_at_match in A as (P & C & L & rest & ->).
  repeat split; try assumption.
  now exists pre, rest.
Qed.

Lemma match_urlRegex_lower (s m : string) :
  In m (match_urlRegex (toLowerCase s)) -> AddEmailForm.lower_case m.
Proof.
  intros H. apply match_urlRegex_shape in H as (_ & _ & _ & C).
  apply (lower_case_contains (toLowerCase s)); [| exact C].
  apply toLowerCase_idempotent.
Qed.

End TextFacts.

(* ===================================================================== *)
(** ** The shape of the results of the e-mail heuristic                  *)
(* ===================================================================== *)

Module HeuristicFacts.
Import Email AddEmailForm.

(** What the loop over the links leaves. *)
Lemma fold_rule_url_shape (urls : list string) (s : Scan) :
  let s' := fold_left rule_url urls s in
  s_indicators s' = s_indicators s
  /\ s_links s' = (s_links s ++ flat_map link_entries urls)%list
  /\ s_riskLevel s'
     = if existsb flagged_url urls then phishing else s_riskLevel s.
Proof.
  revert s; induction urls as [|u urls IH]; intros s; simpl.
  - repeat split. now rewrite app_nil_r.
  - destruct (IH (rule_url s u)) as (I & L & R).
    rewrite I, L, R. clear IH I L R.
    destruct (existsb flagged_url urls);
      unfold rule_url, link_entries, flagged_url;
      fold (keyword_url u); fold (lookalike_url u);
      destruct (keyword_url u), (lookalike_url u); simpl;
      rewrite <- ?app_assoc; simpl; repeat split; reflexivity.
Qed.

(** The state after the detection rules, written out. *)
Lemma detect_shape (data : FormValues) :
  s_indicators (detect data)
  = ((if urgent_hit data then [urgent_indicator] else [])
       ++ (if sensitive_hit data then [sensitive_indicator] else [])
       ++ (if spoofed data then [spoofing_indicator] else []))%list
  /\ s_links (detect data) = flat_map link_entries (urls_of data)
  /\ s_riskLevel (detect data)
     = if spoofed data || existsb flagged_url (urls_of data) then phishing
       else if urgent_hit data || sensitive_hit data then suspicious
       else safe.
Proof.
  unfold detect.
  match goal with
  | |- context [fold_left rule_url ?us ?s0] =>
      destruct (fold_rule_url_shape us s0) as (I & L & R)
  end.
  rewrite I, L, R. clear I L R.
  unfold rule_sender, rule_sensitive, rule_urgent.
  fold (urgent_hit data). fold (sensitive_hit data).
  change ((includes (toLowerCase (sender data)) "paypal"
           && negb (endsWith (toLowerCase (sender data)) "@paypal.com"))
          || (includes (toLowerCase (sender data)) "amazon"
              && negb (endsWith (toLowerCase (sender data)) "@amazon.com"))
          || (includes (toLowerCase (sender data)) "apple"
              && negb (endsWith (toLowerCase (sender data)) "@apple.com")))
    with (spoofed data).
  fold (urls_of data).
  destruct (urgent_hit data), (sensitive_hit data), (spoofed data);
    simpl; repeat split;
    destruct (existsb flagged_url (urls_of data)); reflexivity.
Qed.

(** The result that is returned, written out. *)
Lemma result_shape (data : FormValues) :
  let r := generateMockAnalysisResult data in
  riskLevel r = s_riskLevel (detect data)
  /\ suspiciousLinks r = flat_map link_entries (urls_of data)
  /\ indicators r
     = (s_indicators (detect data)
          ++ (if RiskLevel_eqb (s_riskLevel (detect data)) phishing
                 && (List.length (s_indicators (detect data)) <? 2)%nat
              then [generic_indicator] else []))%list.
Proof.
  simpl. unfold scan, rule_generic.
  destruct (detect_shape data) as (_ & L & _).
  destruct (RiskLevel_eqb _ _ && _); simpl; rewrite L;
    repeat split; now rewrite ?app_nil_r.
Qed.

Lemma link_entries_flagged (u : string) :
  link_entries u <> [] <-> flagged_url u = true.
Proof.
  unfold link_entries, flagged_url.
  destruct (keyword_url u), (lookalike_url u); simpl;
    split; intros H; try reflexivity; try discriminate; try congruence.
Qed.

Lemma flat_map_entries_nil (urls : list string) :
  flat_map link_entries urls = [] <-> existsb flagged_url urls = false.
Proof.
  induction urls as [|u urls IH]; simpl; [tauto |].
  rewrite orb_false_iff, <- IH. split.
  - intros E. apply app_eq_nil in E as [E1 E2]. split; [| exact E2].
    destruct (flagged_url u) eqn:F; [| reflexivity].
    apply link_entries_flagged in F. contradiction.
  - intros [F E]. rewrite E, app_nil_r.
    destruct (link_entries u) eqn:L; [reflexivity |].
    assert (N : link_entries u <> []) by (rewrite L; discriminate).
    apply link_entries_flagged in N. congruence.
Qed.

Lemma in_link_entries (l : Link) (u : string) :
  In l (link_entries u) ->
  url l = u /\ flagged_url u = true
  /\ (reason l = keyword_reason \/ reason l = typosquatting_reason).
Proof.
  unfold link_entries, flagged_url.
  destruct (keyword_url u), (lookalike_url u); simpl;
    intros H; repeat destruct H as [<- | H]; try contradiction;
    simpl; auto.
Qed.

End HeuristicFacts.

(* ===================================================================== *)
(** ** Facts about the link map of [formatLinks]                         *)
(* ===================================================================== *)

Module FormatFacts.
Import Email AddEmailForm.

Lemma map_get_set (k k' v : string) (m : StringMap) :
  map_get k (map_set k' v m)
  = if String.eqb k' k then Some v else map_get k m.
Proof.
  induction m as [|[k1 v1] m IH]; simpl.
  - reflexivity.
  - destruct (String.eqb k1 k') eqn:E1; simpl.
    + apply String.eqb_eq in E1; subst k1.
      destruct (String.eqb k' k); reflexivity.
    + rewrite IH.
      destruct (String.eqb k1 k) eqn:E2; [| reflexivity].
      apply String.eqb_eq in E2; subst k1.
      now rewrite String.eqb_sym, E1.
Qed.

(** Links with other addresses do not change what the map holds for [k]. *)
Lemma map_get_others (k : string) (links : list Link) (m : StringMap) :
  existsb (fun l => String.eqb (url l) k) links = false ->
  map_get k (fold_left put links m) = map_get k m.
Proof.
  revert m; induction links as [|l links IH]; intros m H; simpl in *.
  - reflexivity.
  - apply orb_false_iff in H as [Hl H].
    rewrite (IH _ H). unfold put. now rewrite map_get_set, Hl.
Qed.

Lemma map_has_fold (k : string) (links : list Link) (m : StringMap) :
  map_has k (fold_left put links m)
  = existsb (fun l => String.eqb (url l) k) links || map_has k m.
Proof.
  revert m; induction links as [|l links IH]; intros m; simpl.
  - reflexivity.
  - rewrite IH. unfold map_has, put. rewrite map_get_set.
    destruct (String.eqb (url l) k); simpl.
    + now rewrite orb_true_r.
    + reflexivity.
Qed.

(** The map keeps, for an address, the reason of the last link with it. *)
Lemma map_get_last (k : string) (before after : list Link) (l : Link)
      (m : StringMap) :
  url l = k ->
  existsb (fun x => String.eqb (url x) k) after = false ->
  map_get k (fold_left put (before ++ l :: after) m) = Some (reason l).
Proof.
  intros U A. rewrite fold_left_app. simpl.
  rewrite (map_get_others _ _ _ A). unfold put.
  rewrite map_get_set, U. now rewrite String.eqb_refl.
Qed.

(** The map built from the links of the heuristic. *)
Lemma map_get_entries (k a : string) (m : StringMap) :
  map_get k (fold_left put (link_entries a) m)
  = if String.eqb a k && flagged_url a then Some (kept_reason a)
    else map_get k m.
Proof.
  unfold link_entries, flagged_url, kept_reason, put.
  destruct (keyword_url a), (lookalike_url a); simpl;
    rewrite ?map_get_set; simpl;
    destruct (String.eqb a k); reflexivity.
Qed.

Lemma map_get_heuristic (k : string) (urls : list string) (m : StringMap) :
  map_get k (fold_left put (flat_map link_entries urls) m)
  = if existsb (String.eqb k) urls && flagged_url k then Some (kept_reason k)
    else map_get k m.
Proof.
  revert m; induction urls as [|a urls IH]; intros m; simpl.
  - reflexivity.
  - rewrite fold_left_app, IH, map_get_entries.
    rewrite (String.eqb_sym k a).
    destruct (String.eqb a k) eqn:E; simpl.
    + apply String.eqb_eq in E; subst a.
      destruct (flagged_url k); simpl.
      * now destruct (existsb (String.eqb k) urls).
      * now rewrite andb_false_r.
    + reflexivity.
Qed.

Lemma in_formatLinks (links : list Link) (c : string) (e : DisplayLink) :
  In e (formatLinks links c) <->
  In (link_url e) (match_urlRegex c)
  /\ e = mkDisplay (link_url e)
           (map_has (link_url e) (suspiciousMap_of links))
           (match map_get (link_url e) (suspiciousMap_of links) with
            | Some r => r
            | None => ""
            end).
Proof.
  unfold formatLinks. rewrite in_map_iff. split.
  - intros (u & <- & H). simpl. now split.
  - intros (H & E). exists (link_url e). split; [now symmetry | exact H].
Qed.

End FormatFacts.

(* ===================================================================== *)
(** ** Further properties of the e-mail heuristic                        *)
(* ===================================================================== *)


(** X1.  The heuristic returns [safe] exactly when it returns no indicator,
    and a [safe] result has no suspicious link. *)
Theorem safe_iff_no_indicator :
  forall data : Email.FormValues,
    let r := Email.generateMockAnalysisResult data in
    (Email.riskLevel r = Email.safe <-> Email.indicators r = [])
    /\ (Email.riskLevel r = Email.safe -> Email.suspiciousLinks r = []).
Proof.
  intros data r.
  destruct (HeuristicFacts.result_shape data) as (R & L & I).
  destruct (HeuristicFacts.detect_shape data) as (DI & _ & DR).
  fold r in R, L, I. rewrite R, L, I, DI, DR. clear R L I DI DR.
  destruct (existsb AddEmailForm.flagged_url (AddEmailForm.urls_of data)) eqn:F;
    destruct (AddEmailForm.urgent_hit data), (AddEmailForm.sensitive_hit data),
             (AddEmailForm.spoofed data);
    simpl; (split; [split |]); intros H; try discriminate; try reflexivity;
    now apply HeuristicFacts.flat_map_entries_nil.
Qed.

(** X2.  The heuristic returns [phishing] exactly when the spoofing
    indicator is among the indicators or there is a suspicious link. *)
Theorem phishing_iff_spoofing_or_link :
  forall data : Email.FormValues,
    let r := Email.generateMockAnalysisResult data in
    Email.riskLevel r = Email.phishing <->
    In Email.spoofing_indicator (Email.indicators r)
    \/ Email.suspiciousLinks r <> [].
Proof.
  intros data r.
  destruct (HeuristicFacts.result_shape data) as (R & L & I).
  destruct (HeuristicFacts.detect_shape data) as (DI & _ & DR).
  fold r in R, L, I. rewrite R, L, I, DI, DR. clear R L I DI DR.
  pose proof (HeuristicFacts.flat_map_entries_nil (AddEmailForm.urls_of data))
    as N.
  destruct (existsb AddEmailForm.flagged_url (AddEmailForm.urls_of data)) eqn:F;
    destruct (AddEmailForm.urgent_hit data), (AddEmailForm.sensitive_hit data),
             (AddEmailForm.spoofed data);
    simpl; split; intros H; try reflexivity; try discriminate;
    try (left; simpl; tauto);
    try (right; intros E; apply N in E; discriminate);
    destruct H as [H | H];
    try (exfalso; apply H, N; reflexivity);
    simpl in H; repeat destruct H as [H | H]; try contradiction;
    discriminate.
Qed.

(** X3.  A result has at most three indicators, none of them twice, and at
    most two suspicious-link entries for each link of the content. *)
Theorem result_sizes :
  forall data : Email.FormValues,
    let r := Email.generateMockAnalysisResult data in
    (List.length (Email.indicators r) <= 3)%nat
    /\ NoDup (Email.indicators r)
    /\ (List.length (Email.suspiciousLinks r)
        <= 2 * List.length (AddEmailForm.urls_of data))%nat.
Proof.
  intros data r.
  destruct (HeuristicFacts.result_shape data) as (R & L & I).
  destruct (HeuristicFacts.detect_shape data) as (DI & _ & DR).
  fold r in R, L, I. rewrite L, I, DI, DR. clear R L I DI DR.
  split; [| split].
  - destruct (existsb AddEmailForm.flagged_url (AddEmailForm.urls_of data));
      destruct (AddEmailForm.urgent_hit data),
               (AddEmailForm.sensitive_hit data),
               (AddEmailForm.spoofed data); simpl; lia.
  - destruct (existsb AddEmailForm.flagged_url (AddEmailForm.urls_of data));
      destruct (AddEmailForm.urgent_hit data),
               (AddEmailForm.sensitive_hit data),
               (AddEmailForm.spoofed data); simpl;
      repeat (constructor; simpl; [intuition discriminate |]);
      constructor.
  - induction (AddEmailForm.urls_of data) as [|u urls IH]; simpl; [lia |].
    rewrite length_app.
    assert (List.length (AddEmailForm.link_entries u) <= 2)%nat.
    { unfold AddEmailForm.link_entries.
      destruct (AddEmailForm.keyword_url u), (AddEmailForm.lookalike_url u);
        simpl; lia. }
    lia.
Qed.

(** X4.  The heuristic ignores the case of the letters: it returns the same
    result for the data and for the data in lower case. *)
Theorem classification_ignores_case :
  forall data : Email.FormValues,
    Email.generateMockAnalysisResult (AddEmailForm.lowered data)
    = Email.generateMockAnalysisResult data.
Proof.
  intros data.
  unfold Email.generateMockAnalysisResult, Email.scan, Email.detect,
    AddEmailForm.lowered.
  simpl. now rewrite !TextFacts.toLowerCase_idempotent.
Qed.

(** X5.  Every suspicious link of a result is a link of the lower-cased
    content: it occurs in it, starts with [http://] or [https://], has no
    white space and is in lower case; it contains one of the six words the
    link rules look for and has one of the two reasons. *)
Theorem suspicious_links_come_from_content :
  forall (data : Email.FormValues) (l : Email.Link),
    In l (Email.suspiciousLinks (Email.generateMockAnalysisResult data)) ->
    contains (toLowerCase (Email.content data)) (Email.url l)
    /\ (startsWith (Email.url l) "http://" = true
        \/ startsWith (Email.url l) "https://" = true)
    /\ WHATWG.all_chars (fun c => negb (is_space c)) (Email.url l) = true
    /\ AddEmailForm.lower_case (Email.url l)
    /\ AddEmailForm.flagged_url (Email.url l) = true
    /\ (Email.reason l = Email.keyword_reason
        \/ Email.reason l = Email.typosquatting_reason).
Proof.
  intros data l H.
  destruct (HeuristicFacts.result_shape data) as (_ & L & _).
  rewrite L in H. apply in_flat_map in H as (u & U & H).
  apply HeuristicFacts.in_link_entries in H as (-> & F & Rs).
  pose proof (TextFacts.match_urlRegex_lower _ _ U) as Lc.
  apply TextFacts.match_urlRegex_shape in U as (P & C & _ & S).
  repeat split; assumption.
Qed.

(** X5, at the link of the mail of the scenario. *)
Lemma suspicious_links_come_from_content_witness :
  contains (toLowerCase (Email.content paypa1_mail))
           "https://paypa1.com/verify"
  /\ AddEmailForm.lower_case "https://paypa1.com/verify"
  /\ AddEmailForm.flagged_url "https://paypa1.com/verify" = true.
Proof.
  destruct (suspicious_links_come_from_content paypa1_mail
              (Email.mkLink "https://paypa1.com/verify" Email.keyword_reason))
    as (C & _ & _ & L & F & _).
  - vm_compute. left. reflexivity.
  - repeat split; assumption.
Defined.

(** X6.  The spoofing indicator is returned exactly when the lower-cased
    sender contains one of the names paypal, amazon, apple without ending
    with that brand's address domain, and the verdict is then [phishing]
    whatever the subject and the content are. *)
Theorem spoofed_sender_is_phishing :
  forall data : Email.FormValues,
    let r := Email.generateMockAnalysisResult data in
    let s := toLowerCase (Email.sender data) in
    (In Email.spoofing_indicator (Email.indicators r) <->
     AddEmailForm.spoofs s "paypal" \/ AddEmailForm.spoofs s "amazon"
     \/ AddEmailForm.spoofs s "apple")
    /\ (In Email.spoofing_indicator (Email.indicators r) ->
        Email.riskLevel r = Email.phishing).
Proof.
  intros data r s.
  assert (B : forall brand,
             includes s brand
             && negb (endsWith s ("@" ++ brand ++ ".com")) = true
             <-> AddEmailForm.spoofs s brand).
  { intros brand. unfold AddEmailForm.spoofs.
    rewrite andb_true_iff, negb_true_iff, includes_contains.
    rewrite <- endsWith_suffix.
    destruct (endsWith s ("@" ++ brand ++ ".com")); intuition congruence. }
  assert (S : AddEmailForm.spoofed data = true <->
              AddEmailForm.spoofs s "paypal" \/ AddEmailForm.spoofs s "amazon"
              \/ AddEmailForm.spoofs s "apple").
  { unfold AddEmailForm.spoofed. fold s.
    rewrite !orb_true_iff, <- !B. simpl append. tauto. }
  rewrite <- S. clear B S.
  destruct (HeuristicFacts.result_shape data) as (R & _ & I).
  destruct (HeuristicFacts.detect_shape data) as (DI & _ & DR).
  fold r in R, I. rewrite R, I, DI, DR. clear R I DI DR.
  destruct (existsb AddEmailForm.flagged_url (AddEmailForm.urls_of data));
    destruct (AddEmailForm.urgent_hit data), (AddEmailForm.sensitive_hit data),
             (AddEmailForm.spoofed data);
    simpl; (split; [split |]); intros H; try reflexivity; try tauto;
    try discriminate;
    repeat destruct H as [H | H]; try contradiction; discriminate.
Qed.

(* ===================================================================== *)
(** ** Properties of [formatLinks] and of the mail that is added         *)
(* ===================================================================== *)

(** X7.  [formatLinks] returns one entry for each link of the content as it
    was typed, in order, whatever the suspicious links are.  An entry is
    marked suspicious exactly when a suspicious link has its address; an
    entry that is not marked has the empty reason, and a marked one has the
    reason of the last suspicious link with its address. *)
Theorem formatLinks_marks_by_address :
  forall (suspiciousLinks : list Email.Link) (content : string),
    map AddEmailForm.link_url
        (AddEmailForm.formatLinks suspiciousLinks content)
    = match_urlRegex content
    /\ (forall e,
           In e (AddEmailForm.formatLinks suspiciousLinks content) ->
           (AddEmailForm.isSuspicious e = true <->
            exists l, In l suspiciousLinks
                      /\ Email.url l = AddEmailForm.link_url e)
           /\ (AddEmailForm.isSuspicious e = false ->
               AddEmailForm.link_reason e = "")
           /\ (forall before l after,
                  suspiciousLinks = (before ++ l :: after)%list ->
                  Email.url l = AddEmailForm.link_url e ->
                  (forall x, In x after ->
                             Email.url x <> AddEmailForm.link_url e) ->
                  AddEmailForm.link_reason e = Email.reason l)).
Proof.
  intros links content. split.
  - unfold AddEmailForm.formatLinks. rewrite map_map. simpl. apply map_id.
  - intros e H. apply FormatFacts.in_formatLinks in H as [_ E].
    unfold AddEmailForm.suspiciousMap_of in E.
    split; [| split].
    + rewrite E at 1. simpl.
      rewrite FormatFacts.map_has_fold. unfold AddEmailForm.map_has at 1.
      simpl. rewrite orb_false_r, existsb_exists.
      split; intros (l & Hl & U); exists l; (split; [exact Hl |]);
        now apply String.eqb_eq.
    + rewrite E at 1. simpl. intros Hs. rewrite E. simpl.
      unfold AddEmailForm.map_has in Hs.
      now destruct (AddEmailForm.map_get _ _).
    + intros before l after -> U A. rewrite E. simpl.
      rewrite (FormatFacts.map_get_last _ before after l [] U);
        [reflexivity |].
      destruct (existsb _ after) eqn:X; [| reflexivity].
      apply existsb_exists in X as (x & Hx & Ex).
      apply String.eqb_eq in Ex. exfalso. exact (A x Hx Ex).
Qed.

(** X7, for a content with two links and a suspicious list that names the
    second link twice. *)
Lemma formatLinks_marks_by_address_witness :
  let links := [Email.mkLink "http://b.example/x" "first";
                Email.mkLink "http://b.example/x" "second"] in
  let content := "see http://a.example and http://b.example/x" in
  let e := AddEmailForm.mkDisplay "http://b.example/x" true "second" in
  AddEmailForm.link_reason e = "second"
  /\ (AddEmailForm.isSuspicious e = true <->
      exists l, In l links /\ Email.url l = AddEmailForm.link_url e).
Proof.
  intros links content e.
  destruct (proj2 (formatLinks_marks_by_address links content) e)
    as (M & _ & Last).
  - vm_compute. right. left. reflexivity.
  - split; [| exact M].
    apply (Last [Email.mkLink "http://b.example/x" "first"]
                (Email.mkLink "http://b.example/x" "second") []).
    + reflexivity.
    + reflexivity.
    + simpl. tauto.
Defined.

Lemma added_links_shape (env : AddEmailForm.Outside)
      (data : Email.FormValues) (e : AddEmailForm.DisplayLink) :
  In e (AddEmailForm.links
          (AddEmailForm.newEmail env data
             (Email.generateMockAnalysisResult data))) ->
  let k := AddEmailForm.link_url e in
  let hit := existsb (String.eqb k) (AddEmailForm.urls_of data)
             && AddEmailForm.flagged_url k in
  In k (match_urlRegex (Email.content data))
  /\ AddEmailForm.isSuspicious e = hit
  /\ AddEmailForm.link_reason e
     = if hit then AddEmailForm.kept_reason k else "".
Proof.
  intros H k hit. cbn [AddEmailForm.links AddEmailForm.newEmail] in H.
  destruct (HeuristicFacts.result_shape data) as (_ & L & _).
  rewrite L in H. apply FormatFacts.in_formatLinks in H as [U E].
  unfold AddEmailForm.suspiciousMap_of, AddEmailForm.map_has in E.
  rewrite FormatFacts.map_get_heuristic in E. fold k hit in E. simpl in E.
  split; [exact U |]. rewrite E. simpl. now destruct hit.
Qed.

(** X8.  In the mail that is added with the result of the heuristic for the
    same data, a link is marked suspicious only if it is written in lower
    case in the content: the heuristic records the links of the lower-cased
    content, while [formatLinks] looks the links of the content as typed up
    among them.  A marked link is one the heuristic flagged, with the
    typosquatting reason when it has a look-alike name and the keyword
    reason otherwise.  The link [https://PayPa1.com/Verify] makes the mail
    [phishing] and is not marked. *)
Theorem marked_links_are_lower_case :
  (forall (env : AddEmailForm.Outside) (data : Email.FormValues)
          (e : AddEmailForm.DisplayLink),
      In e (AddEmailForm.links
              (AddEmailForm.newEmail env data
                 (Email.generateMockAnalysisResult data))) ->
      AddEmailForm.isSuspicious e = true ->
      AddEmailForm.lower_case (AddEmailForm.link_url e)
      /\ AddEmailForm.flagged_url (AddEmailForm.link_url e) = true
      /\ AddEmailForm.link_reason e
         = AddEmailForm.kept_reason (AddEmailForm.link_url e))
  /\ (forall env : AddEmailForm.Outside,
         let r := Email.generateMockAnalysisResult
                    AddEmailForm.capitals_mail in
         Email.riskLevel r = Email.phishing
         /\ AddEmailForm.links
              (AddEmailForm.newEmail env AddEmailForm.capitals_mail r)
            = [AddEmailForm.mkDisplay "https://PayPa1.com/Verify" false ""]).
Proof.
  split.
  - intros env data e H S.
    destruct (added_links_shape env data e H) as (_ & Hs & Hr).
    rewrite S in Hs. symmetry in Hs. rewrite Hs in Hr.
    apply andb_true_iff in Hs as [Hu Hf].
    apply existsb_exists in Hu as (u & Hu & E).
    apply String.eqb_eq in E. subst u.
    repeat split; try assumption.
    exact (TextFacts.match_urlRegex_lower _ _ Hu).
  - intros env. split; vm_compute; reflexivity.
Qed.

(** X8, at the link of the mail of the scenario, in lower case. *)
Lemma marked_links_are_lower_case_witness :
  AddEmailForm.lower_case "https://paypa1.com/verify"
  /\ AddEmailForm.flagged_url "https://paypa1.com/verify" = true
  /\ Email.typosquatting_reason
     = AddEmailForm.kept_reason "https://paypa1.com/verify".
Proof.
  apply (proj1 marked_links_are_lower_case
               (AddEmailForm.mkOutside 0 "" None)
               (AddEmailForm.lowered paypa1_mail)
               (AddEmailForm.mkDisplay "https://paypa1.com/verify" true
                  Email.typosquatting_reason)).
  - vm_compute. left. reflexivity.
  - reflexivity.
Defined.

(** X9.  When the content is typed in lower case, the mail added with the
    result of the heuristic for the same data marks exactly the links that
    contain one of the six words of the link rules, each with the reason
    kept for it. *)
Theorem lower_case_content_marks_flagged_links :
  forall (env : AddEmailForm.Outside) (data : Email.FormValues)
         (e : AddEmailForm.DisplayLink),
    AddEmailForm.lower_case (Email.content data) ->
    In e (AddEmailForm.links
            (AddEmailForm.newEmail env data
               (Email.generateMockAnalysisResult data))) ->
    AddEmailForm.isSuspicious e
    = AddEmailForm.flagged_url (AddEmailForm.link_url e)
    /\ AddEmailForm.link_reason e
       = AddEmailForm.kept_reason (AddEmailForm.link_url e).
Proof.
  intros env data e Lc H.
  destruct (added_links_shape env data e H) as (U & Hs & Hr).
  assert (X : existsb (String.eqb (AddEmailForm.link_url e))
                      (AddEmailForm.urls_of data) = true).
  { apply existsb_exists. exists (AddEmailForm.link_url e).
    split; [| apply String.eqb_refl].
    unfold AddEmailForm.urls_of. now rewrite Lc. }
  rewrite X in Hs, Hr. simpl in Hs, Hr. split; [exact Hs |].
  rewrite Hr. unfold AddEmailForm.kept_reason, AddEmailForm.flagged_url.
  now destruct (AddEmailForm.keyword_url _), (AddEmailForm.lookalike_url _).
Qed.

(** X9, at the mail of the scenario in lower case. *)
Lemma lower_case_content_marks_flagged_links_witness :
  true = AddEmailForm.flagged_url "https://paypa1.com/verify"
  /\ Email.typosquatting_reason
     = AddEmailForm.kept_reason "https://paypa1.com/verify".
Proof.
  apply (lower_case_content_marks_flagged_links
           (AddEmailForm.mkOutside 0 "" None)
           (AddEmailForm.lowered paypa1_mail)
           (AddEmailForm.mkDisplay "https://paypa1.com/verify" true
              Email.typosquatting_reason)).
  - vm_compute. reflexivity.
  - vm_compute. left. reflexivity.
Defined.

(* ===================================================================== *)
(** ** Properties of the form around the heuristic                       *)
(* ===================================================================== *)


(** X11.  After a failure the error message stays on display beside the
    result of the fall-back.  For a response that is not a success the
    message is the error text of the body when there is one, and otherwise
    "API Error: ", the status code in decimal, a space and the status
    text. *)
Theorem error_stays_beside_fallback :
  forall (Json : Type) (error_property : Json -> option string)
         (data : Email.FormValues) (st : Email.FormState Json),
    (forall o : Email.FetchOutcome Json,
        Email.failed o ->
        let st1 := Email.analyzeEmail error_property data o st in
        exists message,
          Email.request error_property o = inr message
          /\ Email.analysisError (Email.after_delay st1) = Some message
          /\ Email.analysisResults (Email.after_delay st1)
             = Some (Email.Local (Email.generateMockAnalysisResult data)))
    /\ (forall status statusText body,
           Email.request error_property
             (Email.Responded false status statusText body)
           = inr match body with
                 | Email.Parsed j =>
                     match error_property j with
                     | Some e => e
                     | None => AddEmailForm.status_message status statusText
                     end
                 | Email.Unparseable _ =>
                     AddEmailForm.status_message status statusText
                 end).
Proof.
  intros Json error_property data st. split.
  - intros o F st1.
    destruct (FormFacts.failed_request Json error_property o F) as [m E].
    exists m. split; [exact E |].
    assert (S1 : st1 = Email.mkState false None (Some m)
                         (Email.pending st ++ [data])%list).
    { unfold st1, Email.analyzeEmail. rewrite E. reflexivity. }
    destruct (FormFacts.timers_fire_last Json (Email.pending st) data st1)
      as (R & _ & _ & A).
    { rewrite S1. reflexivity. }
    assert (S2 : Email.after_delay st1
                 = Email.timers_fire
                     (List.length (Email.pending st ++ [data])%list) st1).
    { unfold Email.after_delay. rewrite S1 at 1. reflexivity. }
    rewrite S2, A, R, S1. split; reflexivity.
  - intros status text [m | j]; reflexivity.
Qed.

(** X11, for a service that answers 500 with an error text in the body. *)
Lemma error_stays_beside_fallback_witness :
  exists message,
    Email.request (fun j : string => Some j)
      (Email.Responded false 500 "Internal Server Error"
         (Email.Parsed "model unavailable"))
    = inr message
    /\ Email.analysisError
         (Email.after_delay
            (Email.analyzeEmail (fun j : string => Some j) paypa1_mail
               (Email.Responded false 500 "Internal Server Error"
                  (Email.Parsed "model unavailable"))
               Email.opened))
       = Some message
    /\ Email.analysisResults
         (Email.after_delay
            (Email.analyzeEmail (fun j : string => Some j) paypa1_mail
               (Email.Responded false 500 "Internal Server Error"
                  (Email.Parsed "model unavailable"))
               Email.opened))
       = Some (Email.Local (Email.generateMockAnalysisResult paypa1_mail)).
Proof.
  apply (proj1 (error_stays_beside_fallback string (fun j => Some j)
                  paypa1_mail Email.opened)).
  apply Email.failed_status.
Defined.

(** X12.  The first submission only starts the analysis; when it has
    failed and the fall-back result is on display, the next submission adds
    one mail and closes the form without analysing again: the mail has the
    sender, subject and content of that second submission, and the level,
    indicators and suspicious links computed for the data of the first. *)
Theorem added_mail_keeps_analysed_verdict :
  forall (Json : Type) (error_property : Json -> option string)
         (as_result : Json -> Email.AnalysisResult)
         (env env' : AddEmailForm.Outside)
         (o o' : Email.FetchOutcome Json)
         (data data' : Email.FormValues),
    Email.failed o ->
    let f1 := AddEmailForm.onSubmit error_property as_result env o data
                AddEmailForm.fresh in
    let f2 := AddEmailForm.delay_passes f1 in
    let f3 := AddEmailForm.onSubmit error_property as_result env' o' data'
                f2 in
    AddEmailForm.added f1 = [] /\ AddEmailForm.added f2 = []
    /\ AddEmailForm.added f3
       = [AddEmailForm.newEmail env' data'
            (Email.generateMockAnalysisResult data)]
    /\ AddEmailForm.isOpen f3 = false
    /\ Email.analysisResults (AddEmailForm.state f3) = None
    /\ Email.pending (AddEmailForm.state f3) = [].
Proof.
  intros Json error_property as_result env env' o o' data data' F f1 f2 f3.
  destruct (FormFacts.failed_request Json error_property o F) as [m E].
  assert (S1 : f1 = AddEmailForm.mkFormUI
                      (Email.mkState false None (Some m) [data]) true []).
  { unfold f1, AddEmailForm.onSubmit. simpl.
    unfold Email.analyzeEmail. rewrite E. reflexivity. }
  unfold f3, f2. rewrite S1. simpl. repeat split.
Qed.

(** X12, for a rejected request, with a harmless mail analysed and the mail
    of the scenario submitted. *)
Lemma added_mail_keeps_analysed_verdict_witness :
  let f3 :=
    AddEmailForm.onSubmit (fun _ : string => None)
      (fun _ => Email.generateMockAnalysisResult bare_link)
      (AddEmailForm.mkOutside 2 "later" None)
      (Email.Rejected "Failed to fetch") paypa1_mail
      (AddEmailForm.delay_passes
         (AddEmailForm.onSubmit (fun _ : string => None)
            (fun _ => Email.generateMockAnalysisResult bare_link)
            (AddEmailForm.mkOutside 1 "now" None)
            (Email.Rejected "Failed to fetch") password_subject
            AddEmailForm.fresh)) in
  AddEmailForm.added f3
  = [AddEmailForm.newEmail (AddEmailForm.mkOutside 2 "later" None)
       paypa1_mail (Email.generateMockAnalysisResult password_subject)]
  /\ AddEmailForm.isOpen f3 = false.
Proof.
  destruct (added_mail_keeps_analysed_verdict string (fun _ => None)
              (fun _ => Email.generateMockAnalysisResult bare_link)
              (AddEmailForm.mkOutside 1 "now" None)
              (AddEmailForm.mkOutside 2 "later" None)
              (Email.Rejected "Failed to fetch")
              (Email.Rejected "Failed to fetch")
              password_subject paypa1_mail)
    as (_ & _ & A & O & _).
  - apply Email.failed_network.
  - split; [exact A | exact O].
Defined.

(** X13.  Closing the dialog while the fall-back is pending clears the
    result and the error but not the timer: when the delay has passed the
    closed form holds the result for the data of the failed analysis, and
    after reopening a submission adds a mail with that result without
    analysing. *)
Theorem closing_keeps_pending_fallback :
  forall (Json : Type) (error_property : Json -> option string)
         (as_result : Json -> Email.AnalysisResult)
         (env env' : AddEmailForm.Outside)
         (o o' : Email.FetchOutcome Json)
         (data data' : Email.FormValues),
    Email.failed o ->
    let f1 := AddEmailForm.onSubmit error_property as_result env o data
                AddEmailForm.fresh in
    let f2 := AddEmailForm.handleDialogChange false f1 in
    let f3 := AddEmailForm.delay_passes f2 in
    let f4 := AddEmailForm.onSubmit error_property as_result env' o' data'
                (AddEmailForm.handleDialogChange true f3) in
    Email.analysisResults (AddEmailForm.state f2) = None
    /\ Email.analysisError (AddEmailForm.state f2) = None
    /\ Email.pending (AddEmailForm.state f2) = [data]
    /\ AddEmailForm.isOpen f3 = false
    /\ Email.analysisResults (AddEmailForm.state f3)
       = Some (Email.Local (Email.generateMockAnalysisResult data))
    /\ AddEmailForm.added f4
       = [AddEmailForm.newEmail env' data'
            (Email.generateMockAnalysisResult data)].
Proof.
  intros Json error_property as_result env env' o o' data data' F
         f1 f2 f3 f4.
  destruct (FormFacts.failed_request Json error_property o F) as [m E].
  assert (S1 : f1 = AddEmailForm.mkFormUI
                      (Email.mkState false None (Some m) [data]) true []).
  { unfold f1, AddEmailForm.onSubmit. simpl.
    unfold Email.analyzeEmail. rewrite E. reflexivity. }
  unfold f4, f3, f2. rewrite S1. simpl. repeat split.
Qed.

(** X13, for a rejected request. *)
Lemma closing_keeps_pending_fallback_witness :
  let f3 :=
    AddEmailForm.delay_passes
      (AddEmailForm.handleDialogChange false
         (AddEmailForm.onSubmit (fun _ : string => None)
            (fun _ => Email.generateMockAnalysisResult bare_link)
            (AddEmailForm.mkOutside 1 "now" None)
            (Email.Rejected "Failed to fetch") paypa1_mail
            AddEmailForm.fresh)) in
  AddEmailForm.isOpen f3 = false
  /\ Email.analysisResults (AddEmailForm.state f3)
     = Some (Email.Local (Email.generateMockAnalysisResult paypa1_mail)).
Proof.
  destruct (closing_keeps_pending_fallback string (fun _ => None)
              (fun _ => Email.generateMockAnalysisResult bare_link)
              (AddEmailForm.mkOutside 1 "now" None)
              (AddEmailForm.mkOutside 1 "now" None)
              (Email.Rejected "Failed to fetch")
              (Email.Rejected "Failed to fetch")
              paypa1_mail paypa1_mail)
    as (_ & _ & _ & O & R & _).
  - apply Email.failed_network.
  - split; [exact O | exact R].
Defined.

(* ===================================================================== *)
(** ** Further properties of the URL checker                             *)
(* ===================================================================== *)

Lemma http_is_not_https (s : string) :
  startsWith s "http://" = true -> startsWith s "https://" = false.
Proof.
  intros H. destruct (startsWith_split _ _ H) as [rest ->]. reflexivity.
Qed.

Lemma withScheme_cases (input : string) :
  (startsWith input "http://" = true
   /\ UrlChecker.withScheme input = input)
  \/ (startsWith input "http://" = false
      /\ startsWith (UrlChecker.withScheme input) "https://" = true).
Proof.
  unfold UrlChecker.withScheme.
  destruct (startsWith input "http://") eqn:P; [left; now split | right].
  split; [reflexivity |].
  destruct (startsWith input "https://") eqn:S; simpl; [exact S |].
  reflexivity.
Qed.

Lemma withScheme_idempotent (input : string) :
  UrlChecker.withScheme (UrlChecker.withScheme input)
  = UrlChecker.withScheme input.
Proof.
  destruct (withScheme_cases input) as [[P E] | [P S]].
  - now rewrite !E.
  - unfold UrlChecker.withScheme at 1. rewrite S.
    now rewrite andb_false_r.
Qed.

Lemma withScheme_not_empty (input : string) :
  input <> "" -> UrlChecker.withScheme input <> "".
Proof.
  intros N. unfold UrlChecker.withScheme.
  destruct (negb _ && negb _); [discriminate | exact N].
Qed.

Lemma rules_keep_source (url domain : string) (g : RandomSource) :
  draws (snd (UrlChecker.rules url domain g)) = draws g.
Proof. run; reflexivity. Qed.

Lemma rules_patterns (url domain : string) (g : RandomSource) :
  let v := fst (UrlChecker.rules url domain g) in
  (UrlChecker.v_status v = UrlChecker.safe <-> UrlChecker.v_patterns v = [])
  /\ (List.length (UrlChecker.v_patterns v) <= 1)%nat.
Proof. run; (split; [split; intros; congruence | lia]). Qed.

Lemma isKnownPhishingPattern_spec (host : string) :
  UrlChecker.isKnownPhishingPattern host = true
  <-> UrlDialog.known_phishing host.
Proof.
  unfold UrlChecker.isKnownPhishingPattern, UrlDialog.known_phishing.
  rewrite !orb_true_iff, !includes_contains. tauto.
Qed.

Lemma hasSuspiciousKeyword_spec (host : string) :
  UrlChecker.hasSuspiciousKeyword host = true
  <-> UrlDialog.suspicious_keyword host.
Proof.
  unfold UrlChecker.hasSuspiciousKeyword, UrlDialog.suspicious_keyword.
  rewrite !orb_true_iff, !includes_contains. tauto.
Qed.

(** X14.  Writing the scheme in front changes nothing: a non-empty input
    and the same input with [https://] put in front where it has no scheme
    leave the same dialog and the same random source. *)
Theorem scheme_prefix_changes_nothing :
  forall (URL_new : string -> option UrlChecker.URL) (input : string)
         (st : UrlChecker.Dialog) (g : RandomSource),
    input <> "" ->
    UrlChecker.analyzeUrl URL_new (UrlChecker.withScheme input) st g
    = UrlChecker.analyzeUrl URL_new input st g.
Proof.
  intros URL_new input st g N.
  assert (V : UrlChecker.validateUrl URL_new (UrlChecker.withScheme input)
              = UrlChecker.validateUrl URL_new input).
  { unfold UrlChecker.validateUrl. rewrite withScheme_idempotent.
    pose proof (withScheme_not_empty input N).
    destruct (UrlChecker.withScheme input); [contradiction |].
    destruct input; [contradiction | reflexivity]. }
  unfold UrlChecker.analyzeUrl. now rewrite V, withScheme_idempotent.
Qed.

(** X14, at [google.com] and [https://google.com]. *)
Lemma scheme_prefix_changes_nothing_witness :
  UrlChecker.analyzeUrl WHATWG.URL_new "https://google.com"
    UrlChecker.closed (constant_source (3 # 10))
  = UrlChecker.analyzeUrl WHATWG.URL_new "google.com"
      UrlChecker.closed (constant_source (3 # 10)).
Proof.
  apply (scheme_prefix_changes_nothing WHATWG.URL_new "google.com").
  discriminate.
Defined.

(** X15.  A host that fails the allow-list test and contains
    [secure-verify], [account-update] or [login-confirm] is [malicious] with
    confidence 95 and the one pattern "Known phishing domain pattern",
    whether or not it also looks like a brand name. *)
Theorem known_phishing_is_malicious :
  forall (URL_new : string -> option UrlChecker.URL) (input : string)
         (u : UrlChecker.URL) (st : UrlChecker.Dialog) (g : RandomSource),
    input <> "" ->
    URL_new (UrlChecker.withScheme input) = Some u ->
    UrlDialog.known_phishing (toLowerCase (UrlChecker.hostname u)) ->
    ~ UrlChecker.on_allow_list (toLowerCase (UrlChecker.hostname u)) ->
    exists r,
      UrlChecker.checkResult (fst (UrlChecker.analyzeUrl URL_new input st g))
      = Some r
      /\ UrlChecker.status r = UrlChecker.malicious
      /\ UrlChecker.confidenceScore r = 95
      /\ UrlChecker.maliciousPatterns (UrlChecker.details r)
         = [UrlChecker.phishing_pattern].
Proof.
  intros URL_new input u st g N P K L.
  exists (UrlChecker.result_for input u g).
  split; [now apply analyzeUrl_valid |].
  destruct (result_for_fields input u g) as (-> & -> & ->).
  apply isKnownPhishingPattern_spec in K.
  assert (L' : UrlChecker.isLegitDomain
                 (toLowerCase (UrlChecker.hostname u)) = false).
  { destruct (UrlChecker.isLegitDomain _) eqn:E; [| reflexivity].
    exfalso. apply L. now apply isLegitDomain_spec. }
  unfold UrlChecker.evaluate, UrlChecker.rules. rewrite L', K.
  repeat split.
Qed.

(** X15, at [paypal-secure-verify.com] with the modelled constructor. *)
Lemma known_phishing_is_malicious_witness :
  exists r,
    UrlChecker.checkResult
      (fst (UrlChecker.analyzeUrl WHATWG.URL_new "paypal-secure-verify.com"
              UrlChecker.closed (constant_source 0)))
    = Some r
    /\ UrlChecker.status r = UrlChecker.malicious
    /\ UrlChecker.confidenceScore r = 95
    /\ UrlChecker.maliciousPatterns (UrlChecker.details r)
       = [UrlChecker.phishing_pattern].
Proof.
  apply (known_phishing_is_malicious WHATWG.URL_new
           "paypal-secure-verify.com"
           (UrlChecker.mkURL "paypal-secure-verify.com")).
  - discriminate.
  - vm_compute. reflexivity.
  - apply isKnownPhishingPattern_spec. vm_compute. reflexivity.
  - intros L. apply isLegitDomain_spec in L. vm_compute in L. discriminate.
Defined.

(** X16.  A result of the checker is [safe] exactly when it lists no
    malicious pattern, and it never lists more than one. *)
Theorem safe_iff_no_pattern :
  forall (URL_new : string -> option UrlChecker.URL) (input : string)
         (st : UrlChecker.Dialog) (g : RandomSource)
         (r : UrlChecker.UrlCheckResult),
    UrlChecker.checkResult st = None ->
    UrlChecker.checkResult (fst (UrlChecker.analyzeUrl URL_new input st g))
    = Some r ->
    (UrlChecker.status r = UrlChecker.safe <->
     UrlChecker.maliciousPatterns (UrlChecker.details r) = [])
    /\ (List.length (UrlChecker.maliciousPatterns (UrlChecker.details r))
        <= 1)%nat.
Proof.
  intros URL_new input st g r E R.
  destruct (analyzeUrl_fresh URL_new input st g r E R) as (u & _ & _ & ->).
  destruct (result_for_fields input u g) as (-> & _ & ->).
  apply rules_patterns.
Qed.

(** X16, at [my-site.com] with the modelled constructor. *)
Lemma safe_iff_no_pattern_witness :
  exists r,
    UrlChecker.checkResult
      (fst (UrlChecker.analyzeUrl WHATWG.URL_new "my-site.com"
              UrlChecker.closed (constant_source 0)))
    = Some r
    /\ (UrlChecker.status r = UrlChecker.safe <->
        UrlChecker.maliciousPatterns (UrlChecker.details r) = [])
    /\ (List.length (UrlChecker.maliciousPatterns (UrlChecker.details r))
        <= 1)%nat.
Proof.
  assert (R : UrlChecker.checkResult
                (fst (UrlChecker.analyzeUrl WHATWG.URL_new "my-site.com"
                        UrlChecker.closed (constant_source 0)))
              = Some (UrlChecker.result_for "my-site.com"
                        (UrlChecker.mkURL "my-site.com") (constant_source 0))).
  { vm_compute. reflexivity. }
  eexists. split; [exact R |].
  apply (safe_iff_no_pattern WHATWG.URL_new "my-site.com"
           UrlChecker.closed (constant_source 0)).
  - reflexivity.
  - exact R.
Defined.

(** X17.  The details of a result follow from its status and from the
    input: the address shown is the input with its scheme; the HTTPS status
    is never [invalid], and it is [missing] exactly when the input starts
    with [http://]; the reputation score is 85, 45 or 15 and the domain age
    "3+ years" or "< 30 days" according to the status; there is exactly one
    recommendation; and the redirect count is 0, 1 or 2. *)
Theorem details_follow_status :
  forall (URL_new : string -> option UrlChecker.URL) (input : string)
         (st : UrlChecker.Dialog) (g : RandomSource)
         (r : UrlChecker.UrlCheckResult),
    UrlChecker.checkResult st = None ->
    random_ok g ->
    UrlChecker.checkResult (fst (UrlChecker.analyzeUrl URL_new input st g))
    = Some r ->
    let d := UrlChecker.details r in
    UrlChecker.url r = UrlChecker.withScheme input
    /\ UrlChecker.httpsStatus d <> UrlChecker.invalid
    /\ (UrlChecker.httpsStatus d = UrlChecker.missing <->
        startsWith input "http://" = true)
    /\ UrlChecker.reputationScore d
       = match UrlChecker.status r with
         | UrlChecker.safe => 85
         | UrlChecker.suspicious => 45
         | UrlChecker.malicious => 15
         end
    /\ UrlChecker.domainAge d
       = match UrlChecker.status r with
         | UrlChecker.safe => "3+ years"
         | _ => "< 30 days"
         end
    /\ UrlChecker.recommendations r
       = [UrlChecker.recommendation (UrlChecker.status r)]
    /\ 0 <= UrlChecker.redirectCount d <= 2.
Proof.
  intros URL_new input st g r E G R d.
  destruct (analyzeUrl_fresh URL_new input st g r E R) as (u & _ & _ & Er).
  subst r. unfold d. clear d. unfold UrlChecker.result_for.
  pose proof (rules_keep_source (UrlChecker.withScheme input)
                (toLowerCase (UrlChecker.hostname u)) g) as K.
  unfold UrlChecker.evaluate.
  destruct (UrlChecker.rules (UrlChecker.withScheme input)
              (toLowerCase (UrlChecker.hostname u)) g) as [v g'].
  simpl in K.
  assert (F : 0 <= floor_times (draws g' (taken g')) 3 < 3).
  { rewrite K. destruct (G (taken g')) as [H0 H1].
    now apply floor_times_range. }
  unfold UrlChecker.build.
  destruct (withScheme_cases input) as [[P Ei] | [P S]].
  - rewrite Ei, (http_is_not_https _ P). unfold Math_random.
    cbn [fst UrlChecker.url UrlChecker.status UrlChecker.details
         UrlChecker.httpsStatus UrlChecker.reputationScore
         UrlChecker.domainAge UrlChecker.recommendations
         UrlChecker.redirectCount].
    repeat split; try lia; try discriminate; intros; assumption.
  - rewrite S. unfold Math_random.
    cbn [fst UrlChecker.url UrlChecker.status UrlChecker.details
         UrlChecker.httpsStatus UrlChecker.reputationScore
         UrlChecker.domainAge UrlChecker.recommendations
         UrlChecker.redirectCount].
    repeat split; try lia; try discriminate; intros; congruence.
Qed.

(** X17, at [http://example.com/verify] with the modelled constructor. *)
Lemma details_follow_status_witness :
  exists r,
    UrlChecker.checkResult
      (fst (UrlChecker.analyzeUrl WHATWG.URL_new "http://example.com/verify"
              UrlChecker.closed (constant_source (9 # 10))))
    = Some r
    /\ UrlChecker.url r = "http://example.com/verify"
    /\ UrlChecker.httpsStatus (UrlChecker.details r) = UrlChecker.missing
    /\ 0 <= UrlChecker.redirectCount (UrlChecker.details r) <= 2.
Proof.
  assert (R : UrlChecker.checkResult
                (fst (UrlChecker.analyzeUrl WHATWG.URL_new
                        "http://example.com/verify"
                        UrlChecker.closed (constant_source (9 # 10))))
              = Some (UrlChecker.result_for "http://example.com/verify"
                        (UrlChecker.mkURL "example.com")
                        (constant_source (9 # 10)))).
  { vm_compute. reflexivity. }
  eexists. split; [exact R |].
  destruct (details_follow_status WHATWG.URL_new "http://example.com/verify"
              UrlChecker.closed (constant_source (9 # 10)) _ eq_refl
              (constant_source_ok (9 # 10) ltac:(discriminate)
                 ltac:(reflexivity))
              R)
    as (U & _ & M & _ & _ & _ & C).
  split; [exact U |]. split; [now apply M | exact C].
Defined.

(** X18.  A host that fails the allow-list test and contains a hyphen,
    [secure] or [login] is never [safe], whatever numbers are drawn. *)
Theorem keyword_host_is_not_safe :
  forall (URL_new : string -> option UrlChecker.URL) (input : string)
         (u : UrlChecker.URL) (st : UrlChecker.Dialog) (g : RandomSource),
    input <> "" ->
    URL_new (UrlChecker.withScheme input) = Some u ->
    UrlDialog.suspicious_keyword (toLowerCase (UrlChecker.hostname u)) ->
    ~ UrlChecker.on_allow_list (toLowerCase (UrlChecker.hostname u)) ->
    exists r,
      UrlChecker.checkResult (fst (UrlChecker.analyzeUrl URL_new input st g))
      = Some r
      /\ UrlChecker.status r <> UrlChecker.safe
      /\ UrlChecker.maliciousPatterns (UrlChecker.details r) <> [].
Proof.
  intros URL_new input u st g N P K L.
  exists (UrlChecker.result_for input u g).
  split; [now apply analyzeUrl_valid |].
  destruct (result_for_fields input u g) as (-> & _ & ->).
  apply hasSuspiciousKeyword_spec in K.
  assert (L' : UrlChecker.isLegitDomain
                 (toLowerCase (UrlChecker.hostname u)) = false).
  { destruct (UrlChecker.isLegitDomain _) eqn:E; [| reflexivity].
    exfalso. apply L. now apply isLegitDomain_spec. }
  unfold UrlChecker.evaluate, UrlChecker.rules, bind, ret, Math_random.
  rewrite L', K.
  repeat match goal with
         | |- context [if ?b then _ else _] => destruct b
         end; simpl; split; discriminate.
Qed.

(** X18, at [my-site.com] with the modelled constructor. *)
Lemma keyword_host_is_not_safe_witness :
  exists r,
    UrlChecker.checkResult
      (fst (UrlChecker.analyzeUrl WHATWG.URL_new "my-site.com"
              UrlChecker.closed (constant_source 0)))
    = Some r
    /\ UrlChecker.status r <> UrlChecker.safe
    /\ UrlChecker.maliciousPatterns (UrlChecker.details r) <> [].
Proof.
  apply (keyword_host_is_not_safe WHATWG.URL_new "my-site.com"
           (UrlChecker.mkURL "my-site.com")).
  - discriminate.
  - vm_compute. reflexivity.
  - apply hasSuspiciousKeyword_spec. vm_compute. reflexivity.
  - intros L. apply isLegitDomain_spec in L. vm_compute in L. discriminate.
Defined.

Lemma example_verdict (example host : string) (d : UrlChecker.Dialog)
      (g : RandomSource) :
  example <> "" ->
  WHATWG.hostname_of (UrlChecker.withScheme example) = Some host ->
  UrlDialog.verdict
    (fst (UrlChecker.analyzeUrl WHATWG.URL_new example d g))
  = Some (UrlChecker.v_status
            (fst (UrlChecker.rules (UrlChecker.withScheme example)
                    (toLowerCase host) g))).
Proof.
  intros N H. unfold UrlDialog.verdict.
  rewrite (analyzeUrl_valid WHATWG.URL_new example (UrlChecker.mkURL host)
             d g N).
  - simpl option_map.
    now rewrite (proj1 (result_for_fields example (UrlChecker.mkURL host) g)).
  - unfold WHATWG.URL_new. now rewrite H.
Qed.

(** X19.  With the modelled constructor, each of the ten built-in examples
    passes validation and, whatever numbers are drawn, is classified [safe]
    when its description starts with "Legitimate" and [malicious]
    otherwise, the two examples described as suspicious included;
    [checkExampleUrl] also writes the example into the field and hides the
    examples. *)
Theorem examples_are_safe_or_malicious :
  forall (example description : string) (p : UrlDialog.Panel)
         (g : RandomSource),
    In (example, description) UrlDialog.defaultExamples ->
    let p' := fst (UrlDialog.checkExampleUrl WHATWG.URL_new example p g) in
    UrlDialog.verdict (UrlDialog.dialog p')
    = Some (if startsWith description "Legitimate" then UrlChecker.safe
            else UrlChecker.malicious)
    /\ UrlDialog.urlField p' = example
    /\ UrlDialog.showExamples p' = false.
Proof.
  intros example description p g H p'.
  assert (D : UrlDialog.dialog p'
              = fst (UrlChecker.analyzeUrl WHATWG.URL_new example
                       (UrlDialog.dialog p) g)
              /\ UrlDialog.urlField p' = example
              /\ UrlDialog.showExamples p' = false).
  { unfold p', UrlDialog.checkExampleUrl, bind, ret.
    destruct (UrlChecker.analyzeUrl _ _ _ _). repeat split. }
  destruct D as (D & Fd & Sh). rewrite D.
  split; [| now split].
  simpl in H.
  repeat destruct H as [H | H]; try contradiction;
    injection H as <- <-;
    (etransitivity;
     [ apply example_verdict; [discriminate | vm_compute; reflexivity]
     | vm_compute; reflexivity ]).
Qed.

(** X19, at the example described as a suspicious domain with a brand
    name. *)
Lemma examples_are_safe_or_malicious_witness :
  UrlDialog.verdict
    (UrlDialog.dialog
       (fst (UrlDialog.checkExampleUrl WHATWG.URL_new
               "microsoft-secure-auth.com"
               (UrlDialog.mkPanel UrlChecker.closed "" true)
               (constant_source (9 # 10)))))
  = Some UrlChecker.malicious.
Proof.
  apply (proj1 (examples_are_safe_or_malicious "microsoft-secure-auth.com"
                  "Suspicious domain with brand name"
                  (UrlDialog.mkPanel UrlChecker.closed "" true)
                  (constant_source (9 # 10))
                  ltac:(simpl; tauto))).
Defined.

(** X20.  An input that is rejected does not remove the result of an
    earlier check: after a valid input and then a rejected one the dialog
    shows the result of the first together with the error; the button
    "Check Another URL" removes both. *)
Theorem rejected_input_keeps_earlier_result :
  forall (URL_new : string -> option UrlChecker.URL) (first second : string)
         (u : UrlChecker.URL) (st : UrlChecker.Dialog)
         (g g' : RandomSource) (field : string) (shown : bool),
    first <> "" ->
    URL_new (UrlChecker.withScheme first) = Some u ->
    URL_new (UrlChecker.withScheme second) = None ->
    let d1 := fst (UrlChecker.analyzeUrl URL_new first st g) in
    let d2 := fst (UrlChecker.analyzeUrl URL_new second d1 g') in
    let p := UrlDialog.checkAnother (UrlDialog.mkPanel d2 field shown) in
    UrlChecker.checkResult d2 = Some (UrlChecker.result_for first u g)
    /\ UrlChecker.urlError d2 = Some UrlChecker.invalid_message
    /\ UrlChecker.checkResult (UrlDialog.dialog p) = None
    /\ UrlChecker.urlError (UrlDialog.dialog p) = None
    /\ UrlDialog.urlField p = "".
Proof.
  intros URL_new first second u st g g' field shown N P1 P2 d1 d2 p.
  assert (E2 : d2 = UrlChecker.mkDialog (UrlChecker.isChecking d1)
                      (UrlChecker.checkResult d1)
                      (Some UrlChecker.invalid_message)).
  { unfold d2.
    now rewrite (analyzeUrl_invalid URL_new second d1 g'
                   (validateUrl_unparsed URL_new second P2)). }
  rewrite E2. simpl. unfold d1.
  rewrite (analyzeUrl_valid URL_new first u st g N P1).
  repeat split.
Qed.

(** X20, at [google.com] followed by [not a url]. *)
Lemma rejected_input_keeps_earlier_result_witness :
  let d2 :=
    fst (UrlChecker.analyzeUrl WHATWG.URL_new "not a url"
           (fst (UrlChecker.analyzeUrl WHATWG.URL_new "google.com"
                   UrlChecker.closed (constant_source 0)))
           (constant_source 0)) in
  UrlChecker.checkResult d2
  = Some (UrlChecker.result_for "google.com" (UrlChecker.mkURL "google.com")
            (constant_source 0))
  /\ UrlChecker.urlError d2 = Some UrlChecker.invalid_message.
Proof.
  destruct (rejected_input_keeps_earlier_result WHATWG.URL_new
              "google.com" "not a url" (UrlChecker.mkURL "google.com")
              UrlChecker.closed (constant_source 0) (constant_source 0)
              "" false)
    as (R & E & _).
  - discriminate.
  - vm_compute. reflexivity.
  - vm_compute. reflexivity.
  - split; [exact R | exact E].
Defined.
